(** * The calculator tool of verl/tools/gsm8k_calc.py

    A shallow embedding of [CalculatorTool] (create, execute, calc_reward,
    release) and the properties of its reward policy and session store.

    Modelling choices.
    - Python [int] is [Z]; Python [float] is IEEE binary64, taken from
      Rocq's primitive floats; [bool] is kept apart because it is an [int]
      subclass that [isinstance(result, (int, float))] lets through.
    - [self._instance_dict] is a [gmap string session]; every method is a
      computation in a state-and-exception monad, so that a method which
      raises half-way leaves the writes it already made.
    - The interpreter services the tool calls ([json.loads], [eval] with the
      two namespaces of line 72, [str] and [float]) are the fields of a
      [Runtime] record.  Each of them may raise; [eval] moreover reads and
      changes the state of the interpreter, the [world], which outlives the
      call.  The general theorems hold for every runtime; the closed
      examples run on [CPython.runtime], an executable fragment of the
      interpreter with the default limits of CPython 3.11.
    - Exceptions carry their place in the class hierarchy: the handler of
      line 75 catches those that derive from [Exception] and lets the others
      ([SystemExit], [KeyboardInterrupt]) through.
    - The target is a number, as the annotation of [create] says.  Objects
      that evaluated text can only build through attribute access (instances
      of classes defined on the fly, the tool's own store reached through
      the call stack), non-termination inside [eval], the warning written
      to the logger and the scheduling of the coroutines are not
      modelled. *)

From Stdlib Require Import ZArith Floats Ascii String.
From stdpp Require Import gmap strings pretty.
Set Warnings "-inexact-float,-register-all".

Open Scope Z_scope.

(** ** Python values, exceptions and arithmetic *)

Module Py.

Inductive pyexn : Type :=
| KeyError (key : string)
| SyntaxError
| NameError (name : string)
| TypeError
| ValueError
| ZeroDivisionError
| OverflowError
| RecursionError
| OtherError (class_name : string)
| SystemExit
| KeyboardInterrupt
| OutsideFragment.

(** Whether [except Exception] catches the exception.  [OutsideFragment] is
    no exception of Python: it is what the executable fragment answers on
    input it does not cover, and no handler catches it. *)
Definition derives_from_Exception (e : pyexn) : bool :=
  match e with
  | SystemExit | KeyboardInterrupt | OutsideFragment => false
  | _ => true
  end.

(** What running a piece of Python yields: a value, or a raised exception. *)
Inductive outcome (A : Type) : Type :=
| Returns (a : A)
| Raises (e : pyexn).
Arguments Returns {A} a.
Arguments Raises {A} e.

(** The objects for which [isinstance(x, (int, float))] holds. *)
Inductive pynum : Type :=
| PyInt (z : Z)
| PyBool (b : bool)
| PyFloat (f : float).

(** Any object [eval] may hand back: a number, or some other object, of
    which the tool only ever asks [float(x)]. *)
Inductive pyvalue : Type :=
| PyNum (n : pynum)
| PyObj (float_of : outcome float).

(** Conversion of an [int] to a [float] (PyLong_AsDouble): round to nearest,
    ties to even, and OverflowError when the rounded value leaves the
    binary64 range. *)
Definition float_of_int (z : Z) : outcome float :=
  match binary_normalize FloatOps.prec FloatOps.emax z 0 false with
  | S754_infinity _ => Raises OverflowError
  | sf => Returns (SF2Prim sf)
  end.

Definition as_int (n : pynum) : option Z :=
  match n with
  | PyInt z => Some z
  | PyBool b => Some (Z.b2z b)
  | PyFloat _ => None
  end.

Definition as_float (n : pynum) : outcome float :=
  match n with
  | PyInt z => float_of_int z
  | PyBool b => float_of_int (Z.b2z b)
  | PyFloat f => Returns f
  end.

(** [a - b]: exact on two integers; otherwise the integer operand, if any,
    is converted and the floats are subtracted. *)
Definition py_sub (a b : pynum) : outcome pynum :=
  match as_int a, as_int b with
  | Some x, Some y => Returns (PyInt (x - y))
  | _, _ =>
      match as_float a with
      | Raises e => Raises e
      | Returns x =>
          match as_float b with
          | Raises e => Raises e
          | Returns y => Returns (PyFloat (PrimFloat.sub x y))
          end
      end
  end.

(** [abs(a)]. *)
Definition py_abs (a : pynum) : pynum :=
  match a with
  | PyInt z => PyInt (Z.abs z)
  | PyBool b => PyInt (Z.b2z b)
  | PyFloat f => PyFloat (PrimFloat.abs f)
  end.

(** [z < f] for an integer and a float, compared exactly as Python does
    (no conversion of [z], so no rounding and no overflow). *)
Definition int_lt_float (z : Z) (f : float) : bool :=
  match Prim2SF f with
  | S754_nan => false
  | S754_infinity neg => negb neg
  | S754_zero _ => z <? 0
  | S754_finite neg m e =>
      let v := if neg then Z.neg m else Z.pos m in
      if 0 <=? e then z <? v * 2 ^ e else z * 2 ^ (- e) <? v
  end.

(** [a < tol] where [tol] is a float. *)
Definition py_lt (a : pynum) (tol : float) : bool :=
  match a with
  | PyInt z => int_lt_float z tol
  | PyBool b => int_lt_float (Z.b2z b) tol
  | PyFloat f => PrimFloat.ltb f tol
  end.

(** The values [json.loads] builds.  An object becomes a dict; its members
    are listed in source order, and a key that occurs twice keeps the last
    value. *)
Inductive json : Type :=
| JNull
| JBool (b : bool)
| JInt (z : Z)
| JFloat (f : float)
| JStr (s : string)
| JArr (items : list json)
| JObj (members : list (string * json)).

(** [d.get(key)] on the dict built from [members]. *)
Fixpoint dict_get (members : list (string * json)) (key : string) : option json :=
  match members with
  | [] => None
  | (k, v) :: rest =>
      match dict_get rest key with
      | Some w => Some w
      | None => if String.eqb k key then Some v else None
      end
  end.

(** What [json.loads] does with a document: decode it, raise
    JSONDecodeError, or raise something else (ValueError for an integer of
    too many digits, RecursionError for too deep a nesting). *)
Inductive loaded : Type :=
| Decoded (v : json)
| JSONDecodeError
| LoadRaises (e : pyexn).

(** The services of the interpreter that the tool relies on. *)
Record Runtime : Type := {
  (** the state of the interpreter that evaluated text can read and change *)
  world : Type;
  (** [json.loads(s)] *)
  json_loads : string -> loaded;
  (** [str(v)] of a decoded value *)
  py_str : json -> outcome string;
  (** [eval(s, {"__builtins__": {}}, {"abs": abs, "round": round})] *)
  py_eval : string -> world -> outcome pyvalue * world;
  (** [str(z)] of an integer, as an f-string renders it *)
  str_int : Z -> outcome string;
  (** [str(f)] of a float, as an f-string renders it *)
  repr_float : float -> outcome string
}.

End Py.

Import Py.

(** ** The tool *)

Module CalculatorTool.

(** One entry of [self._instance_dict]: the dict built by [create]. *)
Record session : Type := {
  expression : string;
  result : option pynum;
  expected_result : option pynum;
  reward : float
}.

Definition set_expression (e : string) (s : session) : session :=
  {| expression := e; result := result s;
     expected_result := expected_result s; reward := reward s |}.

Definition set_result (r : option pynum) (s : session) : session :=
  {| expression := expression s; result := r;
     expected_result := expected_result s; reward := reward s |}.

Definition set_reward (w : float) (s : session) : session :=
  {| expression := expression s; result := result s;
     expected_result := expected_result s; reward := w |}.

(** Computations over [self._instance_dict] that may raise. *)
Definition M (A : Type) : Type :=
  gmap string session -> outcome A * gmap string session.

#[global] Instance M_ret : MRet M := fun A a d => (Returns a, d).

#[global] Instance M_bind : MBind M := fun A B k m d =>
  match m d with
  | (Returns a, d') => k a d'
  | (Raises e, d') => (Raises e, d')
  end.

Definition lift {A : Type} (o : outcome A) : M A := fun d => (o, d).

(** [self._instance_dict[instance_id][field]] *)
Definition getitem {A : Type} (instance_id : string) (field : session -> A) : M A :=
  fun d =>
    match d !! instance_id with
    | Some s => (Returns (field s), d)
    | None => (Raises (KeyError instance_id), d)
    end.

(** [self._instance_dict[instance_id][field] = value] *)
Definition setitem (instance_id : string) (update : session -> session) : M unit :=
  fun d =>
    match d !! instance_id with
    | Some s => (Returns tt, <[instance_id := update s]> d)
    | None => (Raises (KeyError instance_id), d)
    end.

(** [abs(result - expected) < tol] *)
Definition within (res expected : pynum) (tol : float) : outcome bool :=
  match py_sub res expected with
  | Returns d => Returns (py_lt (py_abs d) tol)
  | Raises e => Raises e
  end.

(** Lines 90-105. *)
Definition calc_reward (instance_id : string) : M float :=
  res ← getitem instance_id result;
  expected ← getitem instance_id expected_result;
  match res, expected with
  | Some r, Some x =>
      exact ← lift (within r x 1e-10%float);
      if exact : bool then mret 1%float else
      very_close ← lift (within r x 0.01%float);
      if very_close : bool then mret 0.8%float else
      close ← lift (within r x 0.1%float);
      if close : bool then mret 0.5%float else mret 0%float
  | _, _ => mret 0%float
  end.

(** What lines 94-105 compute from the two fields they read. *)
Definition tiered (res expected : option pynum) : outcome float :=
  match res, expected with
  | Some r, Some x =>
      match py_sub r x with
      | Returns d =>
          let distance := py_abs d in
          Returns (if py_lt distance 1e-10%float then 1%float
                   else if py_lt distance 0.01%float then 0.8%float
                   else if py_lt distance 0.1%float then 0.5%float
                   else 0%float)
      | Raises e => Raises e
      end
  | _, _ => Returns 0%float
  end.

(** Lines 46-55.  [uuid] is the string [str(uuid4())] yields at this call;
    it is looked at only when no [instance_id] is given. *)
Definition create (uuid : string) (instance_id : option string)
    (expected : option pynum) : M string :=
  let instance_id := default uuid instance_id in
  fun d =>
    (Returns instance_id,
     <[instance_id := {| expression := ""; result := None;
                         expected_result := expected; reward := 0%float |}]> d).

(** Lines 107-108. *)
Definition release (instance_id : string) : M unit :=
  fun d =>
    match d !! instance_id with
    | Some _ => (Returns tt, delete instance_id d)
    | None => (Raises (KeyError instance_id), d)
    end.


Section Execute.

Context (rt : Runtime).

(** Lines 58-68: from the payload to the expression text.  Only
    JSONDecodeError is caught on line 60; [str] on line 66 is outside every
    handler. *)
Definition parse_parameters (parameters : string) : outcome string :=
  match json_loads rt parameters with
  | LoadRaises e => Raises e
  | answer =>
      let _parameters :=
        match answer with Decoded v => v | _ => JObj [] end in
      match _parameters with
      | JObj members =>
          match dict_get members "expression" with
          | None => Returns ""
          | Some (JStr s) => Returns s
          | Some v => py_str rt v
          end
      | _ => Returns ""
      end
  end.

(** Lines 70-77: the guarded evaluation.  What is raised inside the [try]
    and derives from [Exception] is caught and turns the result into
    [None]; anything else leaves [execute]. *)
Definition evaluate (expression : string) (w : world rt)
    : outcome (option pynum) * world rt :=
  let '(answer, w') := py_eval rt expression w in
  (match answer with
   | Returns (PyNum n) => Returns (Some n)
   | Returns (PyObj (Returns f)) => Returns (Some (PyFloat f))
   | Returns (PyObj (Raises e)) | Raises e =>
       if derives_from_Exception e then Returns None else Raises e
   end, w').

(** [f"{result}"] *)
Definition str_result (res : option pynum) : outcome string :=
  match res with
  | None => Returns "None"
  | Some (PyInt z) => str_int rt z
  | Some (PyBool b) => Returns (if b then "True" else "False")
  | Some (PyFloat f) => repr_float rt f
  end.

(** The f-string of line 88. *)
Definition message (expression : string) (res : option pynum) : outcome string :=
  match str_result res with
  | Returns text => Returns ("Expression: " +:+ expression +:+ ", Result: " +:+ text)
  | Raises e => Raises e
  end.

(** Computations over the store and the interpreter together. *)
Definition MW (A : Type) : Type :=
  gmap string session * world rt -> outcome A * (gmap string session * world rt).

#[global] Instance MW_ret : MRet MW := fun A a st => (Returns a, st).

#[global] Instance MW_bind : MBind MW := fun A B k m st =>
  match m st with
  | (Returns a, st') => k a st'
  | (Raises e, st') => (Raises e, st')
  end.

Definition on_store {A : Type} (m : M A) : MW A :=
  fun st => let '(o, d') := m st.1 in (o, (d', st.2)).

Definition in_world {A : Type} (f : world rt -> outcome A * world rt) : MW A :=
  fun st => let '(o, w') := f st.2 in (o, (st.1, w')).

Definition returned {A : Type} (o : outcome A) : MW A := fun st => (o, st).

(** Lines 57-88.  The third component is the empty metadata dict. *)
Definition execute (instance_id parameters : string)
    : MW (string * float * gmap string pyvalue) :=
  expression ← returned (parse_parameters parameters);
  res ← in_world (evaluate expression);
  _ ← on_store (setitem instance_id (set_expression expression));
  _ ← on_store (setitem instance_id (set_result res));
  new_reward ← on_store (calc_reward instance_id);
  old_reward ← on_store (getitem instance_id reward);
  let tool_reward :=
    if PrimFloat.ltb old_reward new_reward then 0%float else (-0.05)%float in
  _ ← on_store (setitem instance_id (set_reward new_reward));
  text ← returned (message expression res);
  mret (text, tool_reward, ∅).

End Execute.

End CalculatorTool.
(** ** An executable fragment of the interpreter

    Enough of CPython 3.11, with its default limits, to run the tool on
    concrete payloads: a reader for JSON documents made of objects, strings
    without escapes, integers and the three literals, and an evaluator for
    short expressions of integer arithmetic, names, calls and attribute
    access.  Every function answers [None] on input that lies outside the
    fragment. *)

Module CPython.

Definition is_digit (c : ascii) : bool :=
  let n := nat_of_ascii c in ((48 <=? n) && (n <=? 57))%nat.

Definition is_name_start (c : ascii) : bool :=
  let n := nat_of_ascii c in
  (((65 <=? n) && (n <=? 90)) || ((97 <=? n) && (n <=? 122)) || (n =? 95))%nat.

Definition is_name_char (c : ascii) : bool := is_name_start c || is_digit c.

(** Printable ASCII other than the closing quote and the backslash: what a
    string token of the fragment may hold. *)
Definition is_plain (quote c : ascii) : bool :=
  let n := nat_of_ascii c in
  ((32 <=? n) && (n <=? 126) && negb (n =? 92))%nat && negb (Ascii.eqb c quote).

Fixpoint span (p : ascii -> bool) (s : string) : string * string :=
  match s with
  | String c rest =>
      if p c then let '(a, b) := span p rest in (String c a, b) else ("", s)
  | EmptyString => ("", "")
  end.

Fixpoint decimal (acc : Z) (digits : string) : Z :=
  match digits with
  | String c rest => decimal (10 * acc + (Z.of_nat (nat_of_ascii c) - 48)) rest
  | EmptyString => acc
  end.

Definition starts_with (p : ascii -> bool) (s : string) : bool :=
  match s with
  | String c _ => p c
  | EmptyString => false
  end.

(** Sequencing: stop at the first exception, and at the first construct
    outside the fragment. *)
Definition and_then {A B : Type} (m : option (outcome A))
    (k : A -> option (outcome B)) : option (outcome B) :=
  match m with
  | Some (Returns a) => k a
  | Some (Raises e) => Some (Raises e)
  | None => None
  end.

(** *** Decoding the payload *)

(** The most digits an integer may have when it is converted from or to
    text (sys.int_max_str_digits), and a nesting depth of arrays that is
    far beyond what the recursion limit lets the decoder reach. *)
Definition max_str_digits : nat := 4300.
Definition hopeless_depth : N := 100000.

(** The deepest nesting of objects that the fragment decodes. *)
Definition max_depth : nat := 64.

Definition is_json_space (c : ascii) : bool :=
  let n := nat_of_ascii c in ((n =? 32) || (n =? 9) || (n =? 10) || (n =? 13))%nat.

Fixpoint skip_space (s : string) : string :=
  match s with
  | String c rest => if is_json_space c then skip_space rest else s
  | EmptyString => s
  end.

(** The characters that can open a JSON value; [json.loads] rejects a
    document that starts with any other one. *)
Definition opens_json_value (c : ascii) : bool :=
  is_digit c
  || existsb (Ascii.eqb c)
       ["{"; "["; "034"; "-"; "t"; "f"; "n"; "N"; "I"]%char.

Definition strip_prefix (p s : string) : option string :=
  if String.prefix p s
  then Some (String.substring (String.length p) (String.length s - String.length p) s)
  else None.

(** A string token: the opening quote, plain characters, the closing quote. *)
Definition json_string (s : string) : option (string * string) :=
  match s with
  | String q rest =>
      if Ascii.eqb q "034" then
        let '(body, rest') := span (is_plain "034") rest in
        match rest' with
        | String q' rest'' => if Ascii.eqb q' "034" then Some (body, rest'') else None
        | EmptyString => None
        end
      else None
  | EmptyString => None
  end.

(** An integer token, refused when a fraction or an exponent follows; an
    integer of too many digits makes the conversion raise ValueError. *)
Definition json_int (s : string) : option (outcome (Z * string)) :=
  let '(neg, s1) :=
    match s with
    | String c rest => if Ascii.eqb c "-" then (true, rest) else (false, s)
    | EmptyString => (false, s)
    end in
  let '(ds, rest) := span is_digit s1 in
  let well_formed :=
    match ds with
    | EmptyString => false
    | String c more => negb (Ascii.eqb c "0") || String.eqb more ""
    end in
  if well_formed
     && negb (starts_with (fun c => existsb (Ascii.eqb c) ["."; "e"; "E"]%char) rest)
  then
    if (max_str_digits <? String.length ds)%nat then Some (Raises ValueError)
    else Some (Returns (if neg then - decimal 0 ds else decimal 0 ds, rest))
  else None.

Fixpoint json_value (fuel depth : nat) (s : string)
    : option (outcome (json * string)) :=
  match fuel with
  | O => None
  | S fuel =>
      match strip_prefix "null" s, strip_prefix "true" s, strip_prefix "false" s with
      | Some rest, _, _ => Some (Returns (JNull, rest))
      | _, Some rest, _ => Some (Returns (JBool true, rest))
      | _, _, Some rest => Some (Returns (JBool false, rest))
      | None, None, None =>
          match s with
          | String c rest =>
              if Ascii.eqb c "034" then
                '(body, rest') ← json_string s; Some (Returns (JStr body, rest'))
              else if Ascii.eqb c "{" then
                match depth, skip_space rest with
                | S depth, String c' rest' =>
                    if Ascii.eqb c' "}" then Some (Returns (JObj [], rest'))
                    else
                      and_then (json_members fuel depth (skip_space rest))
                        (fun '(members, rest'') => Some (Returns (JObj members, rest'')))
                | _, _ => None
                end
              else
                and_then (json_int s)
                  (fun '(z, rest') => Some (Returns (JInt z, rest')))
          | EmptyString => None
          end
      end
  end
with json_members (fuel depth : nat) (s : string)
    : option (outcome (list (string * json) * string)) :=
  match fuel with
  | O => None
  | S fuel =>
      '(key, s1) ← json_string s;
      match skip_space s1 with
      | String c s2 =>
          if Ascii.eqb c ":" then
            and_then (json_value fuel depth (skip_space s2)) (fun '(v, s3) =>
            match skip_space s3 with
            | String c' s4 =>
                if Ascii.eqb c' "}" then Some (Returns ([(key, v)], s4))
                else if Ascii.eqb c' "," then
                  and_then (json_members fuel depth (skip_space s4))
                    (fun '(more, s5) => Some (Returns ((key, v) :: more, s5)))
                else None
            | EmptyString => None
            end)
          else None
      | EmptyString => None
      end
  end.

(** The number of array brackets the document opens with. *)
Fixpoint leading_brackets (s : string) : N :=
  match s with
  | String c rest => if Ascii.eqb c "[" then N.succ (leading_brackets rest) else 0%N
  | EmptyString => 0%N
  end.

(** [json.loads].  A document that starts with a character that opens no
    value is rejected with JSONDecodeError; one that opens a hopeless
    number of arrays exhausts the recursion limit. *)
Definition loads (s : string) : option loaded :=
  let s := skip_space s in
  if (hopeless_depth <=? leading_brackets s)%N then Some (LoadRaises RecursionError)
  else if starts_with opens_json_value s then
    match json_value (String.length s) max_depth s with
    | Some (Returns (v, rest)) =>
        if String.eqb (skip_space rest) "" then Some (Decoded v) else None
    | Some (Raises e) => Some (LoadRaises e)
    | None => None
    end
  else Some JSONDecodeError.

(** *** Evaluating the expression *)

Inductive token : Type :=
| TInt (z : Z)
| TName (x : string)
| TStr (s : string)
| TPlus | TMinus | TStar | TDoubleStar | TSlash | TDoubleSlash | TPercent
| TLpar | TRpar | TComma | TDot.

(** One operator or delimiter at the head of [c :: rest]. *)
Definition lex_operator (c : ascii) (rest : string) : option (token * string) :=
  if Ascii.eqb c "+" then Some (TPlus, rest)
  else if Ascii.eqb c "-" then Some (TMinus, rest)
  else if Ascii.eqb c "%" then Some (TPercent, rest)
  else if Ascii.eqb c "(" then Some (TLpar, rest)
  else if Ascii.eqb c ")" then Some (TRpar, rest)
  else if Ascii.eqb c "," then Some (TComma, rest)
  else if Ascii.eqb c "*" then
    match rest with
    | String c' rest' =>
        if Ascii.eqb c' "*" then Some (TDoubleStar, rest') else Some (TStar, rest)
    | EmptyString => Some (TStar, rest)
    end
  else if Ascii.eqb c "/" then
    match rest with
    | String c' rest' =>
        if Ascii.eqb c' "/" then Some (TDoubleSlash, rest') else Some (TSlash, rest)
    | EmptyString => Some (TSlash, rest)
    end
  else if Ascii.eqb c "." then
    (* a dot before a digit or another dot belongs to a float or to "..." *)
    if starts_with (fun c' => is_digit c' || Ascii.eqb c' ".") rest
    then None else Some (TDot, rest)
  else None.

Fixpoint lex (fuel : nat) (s : string) : option (list token) :=
  match fuel with
  | O => None
  | S fuel =>
      match s with
      | EmptyString => Some []
      | String c rest =>
          if Ascii.eqb c " " || Ascii.eqb c "009" then lex fuel rest
          else if is_digit c then
            (* decimal integers only: no leading zero, and nothing that would
               continue the literal (fraction, exponent, suffix, underscore) *)
            let '(ds, rest') := span is_digit s in
            if (Ascii.eqb c "0" && negb (String.eqb ds "0"))
               || starts_with (fun c' => is_name_char c' || Ascii.eqb c' ".") rest'
            then None
            else cons (TInt (decimal 0 ds)) <$> lex fuel rest'
          else if is_name_start c then
            (* a quote right after a name would make it a string prefix *)
            let '(x, rest') := span is_name_char s in
            if starts_with (fun c' => Ascii.eqb c' "'" || Ascii.eqb c' "034") rest'
            then None
            else cons (TName x) <$> lex fuel rest'
          else if Ascii.eqb c "'" then
            let '(body, rest') := span (is_plain "'") rest in
            match rest' with
            | String c' rest'' =>
                (* two quotes followed by a third open a triple-quoted string *)
                if Ascii.eqb c' "'"
                   && negb (String.eqb body "" && starts_with (Ascii.eqb "'") rest'')
                then cons (TStr body) <$> lex fuel rest''
                else None
            | EmptyString => None
            end
          else
            '(t, rest') ← lex_operator c rest;
            cons t <$> lex fuel rest'
      end
  end.

Inductive unop : Type := UPlus | UMinus.

Inductive binop : Type := Add | Sub | Mul | Div | FloorDiv | Mod | Pow.

Inductive expr : Type :=
| ENum (z : Z)
| EStr (s : string)
| ETrue
| EFalse
| ENone
| EName (x : string)
| EAttr (e : expr) (attr : string)
| ECall (f : expr) (args : list expr)
| EUnary (op : unop) (e : expr)
| EBin (op : binop) (l r : expr).

(** The reserved words, and [__debug__], which the compiler replaces. *)
Definition reserved : list string :=
  ["and"; "as"; "assert"; "async"; "await"; "break"; "class"; "continue";
   "def"; "del"; "elif"; "else"; "except"; "finally"; "for"; "from";
   "global"; "if"; "import"; "in"; "is"; "lambda"; "nonlocal"; "not"; "or";
   "pass"; "raise"; "return"; "try"; "while"; "with"; "yield"; "__debug__"].

Definition name_atom (x : string) : option expr :=
  if String.eqb x "True" then Some ETrue
  else if String.eqb x "False" then Some EFalse
  else if String.eqb x "None" then Some ENone
  else if existsb (String.eqb x) reserved then None
  else Some (EName x).

(** Recursive descent along Python's grammar:
    sum: term (('+' | '-') term)*;  term: factor (('*' | '/' | '//' | '%') factor)*;
    factor: ('+' | '-') factor | power;  power: primary ['**' factor];
    primary: atom ('.' NAME | '(' [sum (',' sum)*] ')')*. *)
Fixpoint parse_sum (fuel : nat) (ts : list token) : option (expr * list token) :=
  match fuel with
  | O => None
  | S fuel => '(l, ts) ← parse_term fuel ts; sum_rest fuel l ts
  end
with sum_rest (fuel : nat) (l : expr) (ts : list token) : option (expr * list token) :=
  match fuel with
  | O => None
  | S fuel =>
      match ts with
      | TPlus :: ts => '(r, ts) ← parse_term fuel ts; sum_rest fuel (EBin Add l r) ts
      | TMinus :: ts => '(r, ts) ← parse_term fuel ts; sum_rest fuel (EBin Sub l r) ts
      | _ => Some (l, ts)
      end
  end
with parse_term (fuel : nat) (ts : list token) : option (expr * list token) :=
  match fuel with
  | O => None
  | S fuel => '(l, ts) ← parse_factor fuel ts; term_rest fuel l ts
  end
with term_rest (fuel : nat) (l : expr) (ts : list token) : option (expr * list token) :=
  match fuel with
  | O => None
  | S fuel =>
      match ts with
      | TStar :: ts => '(r, ts) ← parse_factor fuel ts; term_rest fuel (EBin Mul l r) ts
      | TSlash :: ts => '(r, ts) ← parse_factor fuel ts; term_rest fuel (EBin Div l r) ts
      | TDoubleSlash :: ts =>
          '(r, ts) ← parse_factor fuel ts; term_rest fuel (EBin FloorDiv l r) ts
      | TPercent :: ts => '(r, ts) ← parse_factor fuel ts; term_rest fuel (EBin Mod l r) ts
      | _ => Some (l, ts)
      end
  end
with parse_factor (fuel : nat) (ts : list token) : option (expr * list token) :=
  match fuel with
  | O => None
  | S fuel =>
      match ts with
      | TPlus :: ts => '(e, ts) ← parse_factor fuel ts; Some (EUnary UPlus e, ts)
      | TMinus :: ts => '(e, ts) ← parse_factor fuel ts; Some (EUnary UMinus e, ts)
      | _ =>
          '(base, ts) ← parse_primary fuel ts;
          match ts with
          | TDoubleStar :: ts =>
              '(exponent, ts) ← parse_factor fuel ts; Some (EBin Pow base exponent, ts)
          | _ => Some (base, ts)
          end
      end
  end
with parse_primary (fuel : nat) (ts : list token) : option (expr * list token) :=
  match fuel with
  | O => None
  | S fuel =>
      match ts with
      | TInt z :: ts => trailers fuel (ENum z) ts
      | TStr s :: ts => trailers fuel (EStr s) ts
      | TName x :: ts => e ← name_atom x; trailers fuel e ts
      | TLpar :: ts =>
          '(e, ts) ← parse_sum fuel ts;
          match ts with
          | TRpar :: ts => trailers fuel e ts
          | _ => None
          end
      | _ => None
      end
  end
with trailers (fuel : nat) (e : expr) (ts : list token) : option (expr * list token) :=
  match fuel with
  | O => None
  | S fuel =>
      match ts with
      | TDot :: TName attr :: ts =>
          if existsb (String.eqb attr) ("True" :: "False" :: "None" :: reserved)
          then None else trailers fuel (EAttr e attr) ts
      | TLpar :: TRpar :: ts => trailers fuel (ECall e []) ts
      | TLpar :: ts =>
          '(args, ts) ← arguments fuel ts; trailers fuel (ECall e args) ts
      | _ => Some (e, ts)
      end
  end
with arguments (fuel : nat) (ts : list token) : option (list expr * list token) :=
  match fuel with
  | O => None
  | S fuel =>
      '(a, ts) ← parse_sum fuel ts;
      match ts with
      | TRpar :: ts => Some ([a], ts)
      | TComma :: ts => '(more, ts) ← arguments fuel ts; Some (a :: more, ts)
      | _ => None
      end
  end.

(** The longest source text of the fragment: short enough to stay clear
    of every limit of the tokenizer, the parser and the compiler. *)
Definition max_source : nat := 100.

(** [ast.parse(s, mode='eval')]: [Some None] for the one certain syntax
    error of the fragment, the empty expression. *)
Definition parse (s : string) : option (option expr) :=
  if (max_source <? String.length s)%nat then None else
  ts ← lex (S (String.length s)) s;
  match ts with
  | [] => Some None
  | _ =>
      '(e, rest) ← parse_sum (8 * S (length ts)) ts;
      match rest with
      | [] => Some (Some e)
      | _ => None
      end
  end.

(** The objects the fragment computes with. *)
Inductive value : Type :=
| VInt (z : Z)
| VBool (b : bool)
| VStr (s : string)
| VNone
| VAbs
| VRound
| VEmptyDict.

(** The namespaces handed to [eval] on line 72, and the builtins that the
    globals name: the empty dict. *)
Definition locals : list (string * value) := [("abs", VAbs); ("round", VRound)].
Definition globals : list (string * value) := [("__builtins__", VEmptyDict)].
Definition builtins : list (string * value) := [].

Fixpoint assoc (x : string) (ns : list (string * value)) : option value :=
  match ns with
  | [] => None
  | (k, v) :: ns => if String.eqb k x then Some v else assoc x ns
  end.

(** Name resolution: locals, then globals, then builtins, else NameError. *)
Definition lookup_name (x : string) : outcome value :=
  match assoc x locals with
  | Some v => Returns v
  | None =>
      match assoc x globals with
      | Some v => Returns v
      | None =>
          match assoc x builtins with
          | Some v => Returns v
          | None => Raises (NameError x)
          end
      end
  end.

Definition int_of (v : value) : option Z :=
  match v with
  | VInt z => Some z
  | VBool b => Some (Z.b2z b)
  | _ => None
  end.

(** [getattr(v, attr)], for the numeric attributes of an [int]. *)
Definition getattr (v : value) (attr : string) : option (outcome value) :=
  match v with
  | VInt z =>
      if String.eqb attr "real" || String.eqb attr "numerator" then Some (Returns (VInt z))
      else if String.eqb attr "imag" then Some (Returns (VInt 0))
      else if String.eqb attr "denominator" then Some (Returns (VInt 1))
      else None
  | _ => None
  end.

Definition unary (op : unop) (v : value) : option (outcome value) :=
  match int_of v with
  | Some z => Some (Returns (VInt (match op with UPlus => z | UMinus => - z end)))
  | None => Some (Raises TypeError)
  end.

(** The largest power, in bits, that the fragment computes. *)
Definition max_power_bits : Z := 100000.

(** Integer arithmetic; the operations whose result is a float are left
    out, and so are powers too large to be computed at once.  [Z.div] and
    [Z.modulo] round towards minus infinity, as [//] and [%] do. *)
Definition binary (op : binop) (l r : value) : option (outcome value) :=
  match int_of l, int_of r with
  | Some a, Some b =>
      match op with
      | Add => Some (Returns (VInt (a + b)))
      | Sub => Some (Returns (VInt (a - b)))
      | Mul => Some (Returns (VInt (a * b)))
      | Div => if b =? 0 then Some (Raises ZeroDivisionError) else None
      | FloorDiv =>
          if b =? 0 then Some (Raises ZeroDivisionError) else Some (Returns (VInt (a / b)))
      | Mod =>
          if b =? 0 then Some (Raises ZeroDivisionError) else Some (Returns (VInt (a mod b)))
      | Pow =>
          if 0 <=? b then
            if (Z.log2 (Z.abs a) + 1) * b <=? max_power_bits
            then Some (Returns (VInt (a ^ b))) else None
          else if a =? 0 then Some (Raises ZeroDivisionError) else None
      end
  | _, _ => None
  end.

Definition call (f : value) (args : list value) : option (outcome value) :=
  match f, args with
  | VAbs, [a] =>
      match int_of a with
      | Some z => Some (Returns (VInt (Z.abs z)))
      | None => Some (Raises TypeError)
      end
  | VRound, [a] =>
      match int_of a with
      | Some z => Some (Returns (VInt z))
      | None => Some (Raises TypeError)
      end
  | VRound, [_; _] => None
  | _, _ => Some (Raises TypeError)
  end.

(** The callee is evaluated first, then the arguments from left to right. *)
Fixpoint eval_expr (e : expr) : option (outcome value) :=
  match e with
  | ENum z => Some (Returns (VInt z))
  | EStr s => Some (Returns (VStr s))
  | ETrue => Some (Returns (VBool true))
  | EFalse => Some (Returns (VBool false))
  | ENone => Some (Returns VNone)
  | EName x => Some (lookup_name x)
  | EAttr e attr => and_then (eval_expr e) (fun v => getattr v attr)
  | ECall f args =>
      and_then (eval_expr f) (fun fv =>
      and_then
        ((fix eval_args (l : list expr) : option (outcome (list value)) :=
            match l with
            | [] => Some (Returns [])
            | a :: l =>
                and_then (eval_expr a) (fun v =>
                and_then (eval_args l) (fun vs => Some (Returns (v :: vs))))
            end) args)
        (call fv))
  | EUnary op e => and_then (eval_expr e) (unary op)
  | EBin op l r =>
      and_then (eval_expr l) (fun a =>
      and_then (eval_expr r) (fun b => binary op a b))
  end.

(** How the tool sees the object: numbers as they are, anything else
    through [float(x)]. *)
Definition export (v : value) : option pyvalue :=
  match v with
  | VInt z => Some (PyNum (PyInt z))
  | VBool b => Some (PyNum (PyBool b))
  | VStr s =>
      if String.eqb s "" then Some (PyObj (Raises ValueError))
      else if forallb is_digit (String.list_ascii_of_string s)
              && (String.length s <=? 15)%nat
      then Some (PyObj (float_of_int (decimal 0 s)))
      else None
  | VNone | VAbs | VRound | VEmptyDict => Some (PyObj (Raises TypeError))
  end.

Definition eval_source (s : string) : option (outcome pyvalue) :=
  tree ← parse s;
  match tree with
  | None => Some (Raises SyntaxError)
  | Some e =>
      r ← eval_expr e;
      match r with
      | Returns v => Returns <$> export v
      | Raises x => Some (Raises x)
      end
  end.

(** *** Rendering *)

(** [str(z)]: refused with ValueError when the digits, the sign apart, are
    more than the limit. *)
Definition str_of_int (z : Z) : outcome string :=
  if (max_str_digits <? String.length (pretty (Z.abs z)))%nat then Raises ValueError
  else Returns (pretty z).

(** [str(f)] for the floats that print as an integer followed by ".0",
    for zero, infinity and nan. *)
Definition str_float (f : float) : option string :=
  match Prim2SF f with
  | S754_nan => Some "nan"
  | S754_infinity neg => Some (if neg then "-inf" else "inf")
  | S754_zero neg => Some (if neg then "-0.0" else "0.0")
  | S754_finite neg m e =>
      let sign := if neg then "-" else "" in
      if 0 <=? e then
        if Z.pos m * 2 ^ e <? 10 ^ 16
        then Some (sign +:+ pretty (Z.pos m * 2 ^ e) +:+ ".0") else None
      else if Z.pos m mod 2 ^ (- e) =? 0
      then Some (sign +:+ pretty (Z.pos m / 2 ^ (- e)) +:+ ".0") else None
  end.

Definition str_json (v : json) : option (outcome string) :=
  match v with
  | JNull => Some (Returns "None")
  | JBool b => Some (Returns (if b then "True" else "False"))
  | JInt z => Some (str_of_int z)
  | JFloat f => Returns <$> str_float f
  | JStr s => Some (Returns s)
  | JArr _ | JObj _ => None
  end.

(** The fragment as a runtime.  It keeps no state between evaluations.
    Outside the fragment every field raises [OutsideFragment], which no
    handler of the tool catches. *)
Definition runtime : Runtime := {|
  world := unit;
  json_loads s := default (LoadRaises OutsideFragment) (loads s);
  py_str v := default (Raises OutsideFragment) (str_json v);
  py_eval s w := (default (Raises OutsideFragment) (eval_source s), w);
  str_int := str_of_int;
  repr_float f := default (Raises OutsideFragment) (Returns <$> str_float f)
|}.

(** The payload whose [expression] member is the text [e]. *)
Definition quote : string := String "034" "".

Definition payload (e : string) : string :=
  "{" +:+ quote +:+ "expression" +:+ quote +:+ ": " +:+ quote +:+ e +:+ quote +:+ "}".

End CPython.

Import CalculatorTool.

(** ** Sequences of calls, and the session invariants as the specification
    words them *)

Module Spec.

Section History.

Context (rt : Runtime).

(** What submitting [parameters] leads to before the store is touched
    (lines 58-77): the expression and the result of its evaluation, or the
    exception that leaves [execute]; and the interpreter afterwards. *)
Definition attempt (parameters : string) (w : world rt)
    : outcome (string * option pynum) * world rt :=
  match parse_parameters rt parameters with
  | Returns expression =>
      (match (evaluate rt expression w).1 with
       | Returns res => Returns (expression, res)
       | Raises e => Raises e
       end, (evaluate rt expression w).2)
  | Raises e => (Raises e, w)
  end.

(** What lines 79-88 do to the store and hand back, given the expression
    and the result of its evaluation. *)
Definition settle (instance_id expression : string) (res : option pynum)
    (d : gmap string session)
    : outcome (string * float * gmap string pyvalue) * gmap string session :=
  match d !! instance_id with
  | None => (Raises (KeyError instance_id), d)
  | Some s =>
      match tiered res (expected_result s) with
      | Raises e =>
          (Raises e,
           <[instance_id := {| expression := expression; result := res;
                               expected_result := expected_result s;
                               reward := reward s |}]> d)
      | Returns score =>
          (match message rt expression res with
           | Returns text =>
               Returns (text,
                        if PrimFloat.ltb (reward s) score
                        then 0%float else (-0.05)%float,
                        ∅)
           | Raises e => Raises e
           end,
           <[instance_id := {| expression := expression; result := res;
                               expected_result := expected_result s;
                               reward := score |}]> d)
      end
  end.

(** The store and the interpreter after the [execute] calls for
    [payloads], one after the other, on the session [instance_id]; a call
    that raises leaves them as they were when the exception left
    [execute]. *)
Definition run (instance_id : string) (payloads : list string)
    (st : gmap string session * world rt) : gmap string session * world rt :=
  foldl (fun st parameters => (execute rt instance_id parameters st).2) st payloads.

(** The evaluations those calls make, in order. *)
Fixpoint evaluations (payloads : list string) (w : world rt)
    : list (outcome (string * option pynum)) :=
  match payloads with
  | [] => []
  | parameters :: payloads =>
      (attempt parameters w).1 :: evaluations payloads (attempt parameters w).2
  end.

(** The value of an evaluation that succeeded. *)
Definition success (o : outcome (string * option pynum)) : option pynum :=
  match o with
  | Returns (_, Some v) => Some v
  | _ => None
  end.

(** The value of the most recent evaluation that succeeded, if any. *)
Definition last_success (payloads : list string) (w : world rt) : option pynum :=
  last (omap success (evaluations payloads w)).

(** "The tiered score of the most recent successful evaluation, or 0.0 if
    none." *)
Definition score_of_last_success (target : option pynum) (payloads : list string)
    (w : world rt) : outcome float :=
  match last_success payloads w with
  | Some v => tiered (Some v) target
  | None => Returns 0%float
  end.


(** The payloads that stand for the empty expression: rejected with
    JSONDecodeError, not a mapping, or a mapping without the [expression]
    member. *)
Definition malformed (parameters : string) : Prop :=
  match json_loads rt parameters with
  | JSONDecodeError => True
  | Decoded (JObj members) => dict_get members "expression" = None
  | Decoded _ => True
  | LoadRaises _ => False
  end.

(** [parameters] decodes to the mapping whose only member is the text
    [text] under [expression]. *)
Definition submits (parameters text : string) : Prop :=
  json_loads rt parameters = Decoded (JObj [("expression", JStr text)]).

(** [parameters] decodes to a mapping whose [expression] member is [v],
    and [v] is not text. *)
Definition carries_non_text (parameters : string) (v : json) : Prop :=
  match json_loads rt parameters with
  | Decoded (JObj members) =>
      dict_get members "expression" = Some v /\
      match v with JStr _ => False | _ => True end
  | _ => False
  end.

End History.

(** The session [create] leaves behind. *)
Definition fresh (target : option pynum) : session :=
  {| expression := ""; result := None; expected_result := target; reward := 0%float |}.

End Spec.

Import Spec.

(** ** A session to run the examples on *)

Module Example.

Import CPython.

Definition target : option pynum := Some (PyFloat 10%float).

(** The store after [create("s", expected_result=10.0)] on an empty tool. *)
Definition store : gmap string session :=
  (create "0f8fad5b-d9cb-469f-a165-70867728950e" (Some "s") target ∅).2.

(** That store, with the interpreter of the fragment. *)
Definition start : gmap string session * world runtime := (store, tt).

(** A payload that is not JSON, and one whose expression is a number. *)
Definition not_json : string := "(4 + 5) * 3".

Definition number_payload : string :=
  "{" +:+ quote +:+ "expression" +:+ quote +:+ ": 10}".

(** A payload that is not JSON either: a hundred thousand brackets. *)
Definition brackets : string := N.iter hopeless_depth (String "[") "".

(** A correct answer followed by a division by zero. *)
Definition right_then_failed : list string := [payload "10"; payload "1/0"].

(** Two sessions with the integer targets 8 and 9. *)
Definition two_sessions : gmap string session :=
  (create "7c9e6679-7425-40de-944b-e07fc1f90ae7" (Some "b") (Some (PyInt 9))
     (create "0f8fad5b-d9cb-469f-a165-70867728950e" (Some "a") (Some (PyInt 8)) ∅).2).2.

(** Every payload and every expression the examples submit, the brackets
    apart. *)
Definition payloads : list string :=
  [payload "10"; payload "5"; payload "1/0"; payload "4+4"; payload "10**400";
   payload "(10).real"; payload "__import__('os').system('ls')"; payload "";
   not_json; number_payload].

Definition expressions : list string :=
  ["10"; "5"; "1/0"; "4+4"; "10**400"; "(10).real";
   "__import__('os').system('ls')"; ""].

End Example.

(** ** The reward policy over the life of a session *)

Module Policy.

(** Line 41: the store of a tool that has just been constructed. *)
Definition new_tool : gmap string session := ∅.

(** The four scores of lines 98-105. *)
Definition is_tier (w : float) : Prop :=
  w = 1%float \/ w = 0.8%float \/ w = 0.5%float \/ w = 0%float.

(** Every session of the store holds one of the four scores. *)
Definition tiers_only (d : gmap string session) : Prop :=
  map_Forall (fun _ s => is_tier (reward s)) d.

(** The place of a score in the tier table, from 0 for 0.0 to 3 for 1.0. *)
Definition rank (w : float) : nat :=
  if PrimFloat.eqb w 1 then 3
  else if PrimFloat.eqb w 0.8 then 2
  else if PrimFloat.eqb w 0.5 then 1
  else 0.

(** The shaping reward of a call, when the call returns. *)
Definition shaping (rt : Runtime) (instance_id parameters : string)
    (st : gmap string session * world rt) : option float :=
  match (execute rt instance_id parameters st).1 with
  | Returns (_, tool_reward, _) => Some tool_reward
  | Raises _ => None
  end.

(** Zero and the finite non-zero floats, as opposed to the infinities and
    nan. *)
Definition finite (f : float) : bool :=
  match Prim2SF f with
  | S754_zero _ | S754_finite _ _ _ => true
  | S754_infinity _ | S754_nan => false
  end.

(** The sub-expression that [CPython.eval_expr] evaluates first. *)
Fixpoint first_evaluated (e : CPython.expr) : CPython.expr :=
  match e with
  | CPython.EAttr e _ => first_evaluated e
  | CPython.ECall f _ => first_evaluated f
  | CPython.EUnary _ e => first_evaluated e
  | CPython.EBin _ l _ => first_evaluated l
  | _ => e
  end.


End Policy.

Import Policy.

(** ** The methods, unfolded *)

(** Closed goals about the example runs are settled by evaluation. *)
Ltac by_evaluation :=
  vm_compute; repeat match goal with |- _ /\ _ => split end; reflexivity.

Lemma calc_reward_unfold (instance_id : string) (d : gmap string session) :
  calc_reward instance_id d =
    (match d !! instance_id with
     | Some s => tiered (result s) (expected_result s)
     | None => Raises (KeyError instance_id)
     end, d).
Proof.
  unfold calc_reward, mbind, M_bind, getitem.
  destruct (d !! instance_id) as [s|] eqn:Hs; [|reflexivity].
  rewrite Hs. unfold tiered.
  destruct (result s) as [r|], (expected_result s) as [x|]; try reflexivity.
  unfold lift, within. destruct (py_sub r x) as [dist|e]; [|reflexivity].
  repeat (destruct (py_lt (py_abs dist) _); [reflexivity|]).
  reflexivity.
Qed.

(** The score is one of the four tiers. *)
Lemma tiered_is_a_tier (res expected : option pynum) (w : float) :
  tiered res expected = Returns w ->
  w = 1%float \/ w = 0.8%float \/ w = 0.5%float \/ w = 0%float.
Proof.
  unfold tiered. intros H.
  destruct res as [r|], expected as [x|]; try (injection H as <-; tauto).
  destruct (py_sub r x) as [dist|e]; [|discriminate].
  repeat (destruct (py_lt (py_abs dist) _); [injection H as <-; tauto|]).
  injection H as <-; tauto.
Qed.

Lemma tier_not_above_itself (res expected : option pynum) (w : float) :
  tiered res expected = Returns w -> PrimFloat.ltb w w = false.
Proof.
  intros H. destruct (tiered_is_a_tier _ _ _ H) as [-> | [-> | [-> | ->]]];
    reflexivity.
Qed.

Lemma tiered_without_result (expected : option pynum) :
  tiered None expected = Returns 0%float.
Proof. reflexivity. Qed.

Lemma tiered_without_target (res : option pynum) :
  tiered res None = Returns 0%float.
Proof. destruct res; reflexivity. Qed.

Section Unfolded.

Context (rt : Runtime).

(** Lines 79-88 in one piece. *)
Lemma settle_unfold (instance_id expression : string) (res : option pynum)
    (d : gmap string session) (w : world rt) :
  (_ ← on_store rt (setitem instance_id (set_expression expression));
   _ ← on_store rt (setitem instance_id (set_result res));
   new_reward ← on_store rt (calc_reward instance_id);
   old_reward ← on_store rt (getitem instance_id reward);
   _ ← on_store rt (setitem instance_id (set_reward new_reward));
   text ← returned rt (message rt expression res);
   mret (text,
         if PrimFloat.ltb old_reward new_reward then 0%float else (-0.05)%float,
         ∅)) (d, w)
  = ((settle rt instance_id expression res d).1,
     ((settle rt instance_id expression res d).2, w)).
Proof.
  unfold settle, mbind, MW_bind, on_store, setitem, getitem, returned.
  cbn [fst snd].
  destruct (d !! instance_id) as [s|] eqn:Hs; [|reflexivity].
  cbn [fst snd]. rewrite lookup_insert_eq. cbn [fst snd].
  rewrite calc_reward_unfold, lookup_insert_eq.
  cbn [set_result set_expression result expected_result CalculatorTool.expression
       reward fst snd].
  rewrite insert_insert_eq.
  destruct (tiered res (expected_result s)) as [score|e]; [|reflexivity].
  cbn [fst snd]. rewrite lookup_insert_eq. cbn [fst snd].
  rewrite lookup_insert_eq.
  cbn [set_reward set_result set_expression result expected_result
       CalculatorTool.expression reward fst snd].
  rewrite insert_insert_eq.
  destruct (message rt expression res); reflexivity.
Qed.

(** One call of [execute]: the payload is parsed and evaluated, which may
    already raise; then lines 79-88 run on the store. *)
Lemma execute_unfold (instance_id parameters : string)
    (d : gmap string session) (w : world rt) :
  execute rt instance_id parameters (d, w) =
    match attempt rt parameters w with
    | (Returns (expression, res), w') =>
        ((settle rt instance_id expression res d).1,
         ((settle rt instance_id expression res d).2, w'))
    | (Raises e, w') => (Raises e, (d, w'))
    end.
Proof.
  unfold execute, attempt.
  unfold mbind at 1. unfold MW_bind at 1. unfold returned at 1.
  destruct (parse_parameters rt parameters) as [expression|e]; [|reflexivity].
  unfold mbind at 1. unfold MW_bind at 1. unfold in_world at 1. cbn [fst snd].
  destruct (evaluate rt expression w) as [[res|e] w']; [|reflexivity].
  cbn [fst snd]. apply settle_unfold.
Qed.


(** The store after [settle]: the named session is rewritten, keeping its
    target, or, if there is none, nothing is. *)
Lemma settle_store (instance_id ex : string) (res : option pynum)
    (d : gmap string session) :
  match d !! instance_id with
  | Some s =>
      exists s', (settle rt instance_id ex res d).2 = <[instance_id := s']> d /\
                 expression s' = ex /\ result s' = res /\
                 expected_result s' = expected_result s /\
                 (reward s' = reward s \/
                  tiered res (expected_result s) = Returns (reward s'))
  | None => settle rt instance_id ex res d = (Raises (KeyError instance_id), d)
  end.
Proof.
  unfold settle. destruct (d !! instance_id) as [s|]; [|reflexivity].
  destruct (tiered res (expected_result s)) as [score|e]; cbn [snd];
    eexists; (split; [reflexivity|]); cbn [CalculatorTool.expression result
                                           expected_result reward]; auto.
Qed.

(** The store after a call. *)
Lemma execute_store (instance_id parameters : string)
    (d : gmap string session) (w : world rt) :
  (execute rt instance_id parameters (d, w)).2.1 = d \/
  exists s s', d !! instance_id = Some s /\
               (execute rt instance_id parameters (d, w)).2.1 = <[instance_id := s']> d /\
               expected_result s' = expected_result s /\
               (reward s' = reward s \/
                exists res, tiered res (expected_result s) = Returns (reward s')).
Proof.
  rewrite execute_unfold.
  destruct (attempt rt parameters w) as [[[ex r]|e] w']; [|left; reflexivity].
  cbn [fst snd].
  pose proof (settle_store instance_id ex r d) as H.
  destruct (d !! instance_id) as [s|].
  - destruct H as (s' & Hs' & _ & _ & Ht & Hr). right. exists s, s'.
    repeat split; auto. destruct Hr; eauto.
  - rewrite H. left. reflexivity.
Qed.

(** A call keeps the session in the store, with its target. *)
Lemma execute_keeps_session (instance_id parameters : string)
    (d : gmap string session) (w : world rt) (s : session) :
  d !! instance_id = Some s ->
  exists s', (execute rt instance_id parameters (d, w)).2.1 !! instance_id = Some s' /\
             expected_result s' = expected_result s.
Proof.
  intros Hs.
  destruct (execute_store instance_id parameters d w) as [-> | (s0 & s' & H0 & -> & Ht & _)].
  - eauto.
  - exists s'. rewrite lookup_insert_eq. split; [reflexivity | congruence].
Qed.

Lemma run_keeps_session (instance_id : string) (payloads : list string)
    (d : gmap string session) (w : world rt) (s : session) :
  d !! instance_id = Some s ->
  exists s', (run rt instance_id payloads (d, w)).1 !! instance_id = Some s' /\
             expected_result s' = expected_result s.
Proof.
  revert d w s. induction payloads as [|p payloads IH]; intros d w s Hs.
  - exists s. split; [exact Hs | reflexivity].
  - destruct (execute_keeps_session instance_id p d w s Hs) as (s1 & H1 & Ht).
    change (run rt instance_id (p :: payloads) (d, w))
      with (run rt instance_id payloads (execute rt instance_id p (d, w)).2).
    destruct (execute rt instance_id p (d, w)).2 as [d1 w1] eqn:E.
    destruct (IH d1 w1 s1 H1) as (s' & H' & Ht').
    exists s'. split; [exact H' | congruence].
Qed.


(** A run makes the evaluations listed by [evaluations], and leaves the
    interpreter they leave. *)
Lemma run_cons (instance_id : string) (p : string) (payloads : list string)
    (st : gmap string session * world rt) :
  run rt instance_id (p :: payloads) st =
    run rt instance_id payloads (execute rt instance_id p st).2.
Proof. reflexivity. Qed.

End Unfolded.

(** ** The reward tiers (calc_reward) *)

(** Whenever the difference [result - expected] can be formed, the score is
    read off the tier table. *)
Lemma calc_reward_tiers (instance_id : string) (d : gmap string session)
    (s : session) (r x dist : pynum) :
  d !! instance_id = Some s ->
  result s = Some r -> expected_result s = Some x ->
  py_sub r x = Returns dist ->
  (calc_reward instance_id d).1 =
    Returns (if py_lt (py_abs dist) 1e-10%float then 1%float
             else if py_lt (py_abs dist) 0.01%float then 0.8%float
             else if py_lt (py_abs dist) 0.1%float then 0.5%float
             else 0%float).
Proof.
  intros Hs Hr Hx Hd. rewrite calc_reward_unfold, Hs. cbn [fst].
  rewrite Hr, Hx. unfold tiered. rewrite Hd. reflexivity.
Qed.

Lemma calc_reward_missing (instance_id : string) (d : gmap string session)
    (s : session) :
  d !! instance_id = Some s ->
  result s = None \/ expected_result s = None ->
  (calc_reward instance_id d).1 = Returns 0%float.
Proof.
  intros Hs H. rewrite calc_reward_unfold, Hs. cbn [fst].
  destruct H as [-> | ->];
    [apply tiered_without_result | apply tiered_without_target].
Qed.

(** The subtraction fails in one way only: an integer operand too large
    to convert to a float. *)
Lemma py_sub_raises_only_overflow (r x : pynum) (e : pyexn) :
  py_sub r x = Raises e -> e = OverflowError.
Proof.
  assert (Hconv : forall z e', float_of_int z = Raises e' -> e' = OverflowError).
  { intros z e'. unfold float_of_int.
    destruct (binary_normalize _ _ _ _ _); congruence. }
  unfold py_sub, as_float.
  destruct r as [a|a|a], x as [b|b|b]; cbn [as_int]; try discriminate;
    repeat match goal with
           | |- context [float_of_int ?z] =>
               let H := fresh "H" in
               destruct (float_of_int z) eqn:H; [|apply Hconv in H]
           end; congruence.
Qed.

(** C1: the tier table is not what [calc_reward] returns for every numeric
    result and target.  The session left by submitting [10**400] to the
    example session holds the integer 10^400 and the float target 10.0:
    on it [calc_reward] raises OverflowError at [result - expected], where
    the table says 0.0. *)
Theorem calc_reward_overflows_on_huge_result :
  let d := (execute CPython.runtime "s" (CPython.payload "10**400") Example.start).2.1 in
  result <$> d !! "s" = Some (Some (PyInt (10 ^ 400))) /\
  expected_result <$> d !! "s" = Some (Some (PyFloat 10%float)) /\
  calc_reward "s" d = (Raises OverflowError, d).
Proof.
  cbv zeta. rewrite calc_reward_unfold.
  by_evaluation.
Qed.

(** ** The shaping reward (execute) *)

(** [execute] looks at the payload only through the expression it yields. *)
Lemma execute_depends_on_expression (rt : Runtime) (instance_id p p' : string)
    (st : gmap string session * world rt) :
  parse_parameters rt p = parse_parameters rt p' ->
  execute rt instance_id p st = execute rt instance_id p' st.
Proof. intros H. unfold execute. rewrite H. reflexivity. Qed.

(** A call that returns has parsed and evaluated its payload, scored the
    result and built the message; the session then holds all of it. *)
Lemma returning_call (rt : Runtime) (instance_id parameters : string)
    (d : gmap string session) (w : world rt) (s : session)
    (out : string * float * gmap string pyvalue)
    (st' : gmap string session * world rt) :
  d !! instance_id = Some s ->
  execute rt instance_id parameters (d, w) = (Returns out, st') ->
  exists ex r score text,
    attempt rt parameters w = (Returns (ex, r), st'.2) /\
    tiered r (expected_result s) = Returns score /\
    message rt ex r = Returns text /\
    out = (text,
           if PrimFloat.ltb (reward s) score then 0%float else (-0.05)%float,
           ∅) /\
    st'.1 = <[instance_id := {| expression := ex; result := r;
                                expected_result := expected_result s;
                                reward := score |}]> d.
Proof.
  intros Hs. rewrite execute_unfold.
  destruct (attempt rt parameters w) as [[[ex r]|e] w']; [|discriminate].
  unfold settle. rewrite Hs.
  destruct (tiered r (expected_result s)) as [score|e] eqn:Hscore;
    cbn [fst snd]; [|discriminate].
  destruct (message rt ex r) as [text|e] eqn:Htext; [|discriminate].
  intros [= <- <-]. exists ex, r, score, text. repeat split; assumption.
Qed.

(** The policy of line 84, for the calls that return: no penalty when the
    new score is strictly above the stored one, the penalty otherwise. *)
Lemma shaping_reward_policy (rt : Runtime) (instance_id parameters : string)
    (d : gmap string session) (w : world rt) (s : session)
    (msg : string) (tool_reward : float) (meta : gmap string pyvalue)
    (st' : gmap string session * world rt) :
  d !! instance_id = Some s ->
  execute rt instance_id parameters (d, w) = (Returns (msg, tool_reward, meta), st') ->
  exists new_reward,
    calc_reward instance_id st'.1 = (Returns new_reward, st'.1) /\
    (PrimFloat.ltb (reward s) new_reward = true -> tool_reward = 0%float) /\
    (PrimFloat.ltb (reward s) new_reward = false -> tool_reward = (-0.05)%float).
Proof.
  intros Hs Hex.
  destruct (returning_call rt _ _ _ _ _ _ _ Hs Hex)
    as (ex & r & score & text & _ & Hscore & _ & [= _ -> _] & Hst).
  exists score. rewrite Hst, calc_reward_unfold, lookup_insert_eq.
  cbn [result expected_result]. rewrite Hscore.
  repeat split; intros ->; reflexivity.
Qed.

(** A payload submitted again right after a call that returned is
    penalised, provided the second call returns and its evaluation gives the
    result the first one gave. *)
Lemma repeated_result_is_penalised (rt : Runtime) (instance_id parameters : string)
    (d : gmap string session) (w : world rt) (s : session)
    (out out' : string * float * gmap string pyvalue)
    (st' st'' : gmap string session * world rt) :
  d !! instance_id = Some s ->
  execute rt instance_id parameters (d, w) = (Returns out, st') ->
  execute rt instance_id parameters st' = (Returns out', st'') ->
  (attempt rt parameters st'.2).1 = (attempt rt parameters w).1 ->
  out'.1.2 = (-0.05)%float.
Proof.
  intros Hs Hex Hex' Hsame.
  destruct (returning_call rt _ _ _ _ _ _ _ Hs Hex)
    as (ex & r & score & text & Hatt & Hscore & _ & _ & Hst).
  destruct st' as [d' w']. cbn [fst snd] in *.
  assert (Hs' : d' !! instance_id = Some {| expression := ex; result := r;
                                           expected_result := expected_result s;
                                           reward := score |})
    by (rewrite Hst; apply lookup_insert_eq).
  destruct (returning_call rt _ _ _ _ _ _ _ Hs' Hex')
    as (ex' & r' & score' & text' & Hatt' & Hscore' & _ & -> & _).
  rewrite Hatt, Hatt' in Hsame. cbn [fst] in Hsame. injection Hsame as -> ->.
  cbn [expected_result reward] in *.
  rewrite Hscore in Hscore'. injection Hscore' as <-.
  cbn [fst snd]. rewrite (tier_not_above_itself _ _ _ Hscore). reflexivity.
Qed.

(** C2: the second of two identical submissions does not always return
    the shaping reward -0.05.  On the example session, whose target is the
    float 10.0, the payload [10**400] submitted twice in a row raises
    OverflowError both times: no shaping reward is returned at all. *)
Theorem repeated_submission_raises :
  let first := execute CPython.runtime "s" (CPython.payload "10**400") Example.start in
  let second := execute CPython.runtime "s" (CPython.payload "10**400") first.2 in
  first.1 = Raises OverflowError /\ second.1 = Raises OverflowError.
Proof. cbv zeta. by_evaluation. Qed.

(** ** What the session remembers *)

Section Remembered.

Context (rt : Runtime).


(** A failed evaluation never stops the call: it returns, with a null
    result and the score 0.0 stored (and the penalty, unless the stored
    reward was below 0.0). *)
Lemma evaluation_failure_is_absorbed (instance_id parameters ex : string)
    (d : gmap string session) (w w' : world rt) (s : session) :
  d !! instance_id = Some s ->
  attempt rt parameters w = (Returns (ex, None), w') ->
  execute rt instance_id parameters (d, w) =
    (Returns ("Expression: " +:+ ex +:+ ", Result: None",
              if PrimFloat.ltb (reward s) 0 then 0%float else (-0.05)%float, ∅),
     (<[instance_id := {| expression := ex; result := None;
                          expected_result := expected_result s;
                          reward := 0%float |}]> d, w')).
Proof.
  intros Hs Hfail. rewrite execute_unfold, Hfail. unfold settle.
  rewrite Hs, tiered_without_result. reflexivity.
Qed.

End Remembered.

(** C3 (as stated, refuted): after a correct answer followed by a division
    by zero, the stored reward is 0.0, while the most recent successful
    evaluation scored 1.0. *)
Lemma reward_forgets_last_success :
  reward <$> (run CPython.runtime "s" Example.right_then_failed Example.start).1 !! "s"
    = Some 0%float /\
  score_of_last_success CPython.runtime Example.target Example.right_then_failed tt
    = Returns 1%float /\
  Some (Returns 0%float)
    <> Some (score_of_last_success CPython.runtime Example.target
               Example.right_then_failed tt).
Proof.
  split; [vm_compute; reflexivity|].
  split; [vm_compute; reflexivity|].
  intros H. apply (f_equal (fun o =>
    match o with Some (Returns w) => PrimFloat.eqb w 0 | _ => false end)) in H.
  vm_compute in H. discriminate H.
Qed.

(** C3 (amended): a fresh session stores the reward 0.0; and after every
    [execute] call that returns, whatever calls came before, the stored
    reward is the tiered score of the evaluation made by this call, the
    most recent one: the score of its result against the target, and 0.0
    when that evaluation failed. *)
Theorem reward_reflects_latest_evaluation (rt : Runtime) (uuid : string)
    (instance_id : option string) (target : option pynum)
    (d0 : gmap string session) :
  let id := default uuid instance_id in
  let d := (create uuid instance_id target d0).2 in
  reward <$> d !! id = Some 0%float /\
  forall (w0 : world rt) (payloads : list string) (p : string) out after,
    execute rt id p (run rt id payloads (d, w0)) = (Returns out, after) ->
    exists ex r w,
      (attempt rt p (run rt id payloads (d, w0)).2).1 = Returns (ex, r) /\
      reward <$> after.1 !! id = Some w /\
      tiered r target = Returns w /\
      (r = None -> w = 0%float).
Proof.
  cbv zeta. unfold create. cbn [snd].
  split; [rewrite lookup_insert_eq; reflexivity|].
  intros w0 payloads p out after.
  destruct (run_keeps_session rt (default uuid instance_id) payloads
              (<[default uuid instance_id := Spec.fresh target]> d0) w0
              (Spec.fresh target)) as (s1 & H1 & Ht1);
    [apply lookup_insert_eq|].
  unfold Spec.fresh in H1 at 1.
  destruct (run rt (default uuid instance_id) payloads _) as [d1 w1] eqn:Hrun.
  cbn [fst snd] in *. intros Hex.
  destruct (returning_call rt _ _ _ _ _ _ _ H1 Hex)
    as (ex & r & score & text & Hatt & Hscore & _ & _ & Hst).
  exists ex, r, score. rewrite Hatt, Hst, lookup_insert_eq.
  cbn [expected_result Spec.fresh] in Ht1. rewrite Ht1 in Hscore.
  repeat split; try assumption.
  intros ->. rewrite tiered_without_result in Hscore. congruence.
Qed.

Lemma reward_reflects_latest_evaluation_witness :
  exists ex r w,
    (attempt CPython.runtime (CPython.payload "1/0")
       (run CPython.runtime "s" [CPython.payload "10"] Example.start).2).1
      = Returns (ex, r) /\
    reward <$> (run CPython.runtime "s" Example.right_then_failed Example.start).1 !! "s"
      = Some w /\
    tiered r Example.target = Returns w /\
    (r = None -> w = 0%float).
Proof.
  destruct (reward_reflects_latest_evaluation CPython.runtime
              "0f8fad5b-d9cb-469f-a165-70867728950e" (Some "s") Example.target ∅)
    as [_ H].
  apply (H tt [CPython.payload "10"] (CPython.payload "1/0")
           ("Expression: 1/0, Result: None", (-0.05)%float, ∅)).
  vm_compute. reflexivity.
Defined.



(** ** The evaluator's namespace *)

(** The names that resolve under the namespaces of line 72: the two
    functions of the locals, and [__builtins__] itself. *)
Lemma names_available (x : string) (v : CPython.value) :
  CPython.lookup_name x = Returns v ->
  x = "abs" \/ x = "round" \/ x = "__builtins__".
Proof.
  unfold CPython.lookup_name, CPython.locals, CPython.globals, CPython.builtins.
  cbn [CPython.assoc].
  destruct (String.eqb_spec "abs" x) as [<-|_]; [tauto|].
  destruct (String.eqb_spec "round" x) as [<-|_]; [tauto|].
  destruct (String.eqb_spec "__builtins__" x) as [<-|_]; [tauto|].
  discriminate.
Qed.

(** The import attempt of the specification stops at the name lookup: the
    call returns with a null result and the score 0.0. *)
Lemma import_is_neutralised :
  py_eval CPython.runtime "__import__('os').system('ls')" tt
    = (Raises (NameError "__import__"), tt) /\
  execute CPython.runtime "s" (CPython.payload "__import__('os').system('ls')")
    Example.start
  = (Returns ("Expression: __import__('os').system('ls'), Result: None",
              (-0.05)%float, ∅),
     (<["s" := {| expression := "__import__('os').system('ls')"; result := None;
                  expected_result := Example.target; reward := 0%float |}]> ∅, tt)).
Proof. by_evaluation. Qed.

(** C5: the evaluation does not refuse attribute access.  The expression
    [(10).real] reads an attribute of an integer; it evaluates to 10 and
    earns the full score against the target 10.0, where an evaluator without
    attribute access would have produced a null result and the score 0.0. *)
Theorem attribute_access_is_evaluated :
  CPython.parse "(10).real" = Some (Some (CPython.EAttr (CPython.ENum 10) "real")) /\
  py_eval CPython.runtime "(10).real" tt = (Returns (PyNum (PyInt 10)), tt) /\
  execute CPython.runtime "s" (CPython.payload "(10).real") Example.start
  = (Returns ("Expression: (10).real, Result: 10", 0%float, ∅),
     (<["s" := {| expression := "(10).real"; result := Some (PyInt 10);
                  expected_result := Example.target; reward := 1%float |}]> ∅, tt)).
Proof. by_evaluation. Qed.

(** ** Exceptions that leave execute *)

(** C6: [execute] does not return a triple for every payload on an existing
    session.  Submitting [10**400] to the example session, whose target is
    the float 10.0, evaluates without error, stores the expression and the
    integer result, and then raises OverflowError out of [execute] when the
    reward is computed; the stored reward is left as it was. *)
Theorem execute_raises_on_huge_integer :
  Example.store !! "s" = Some (Spec.fresh Example.target) /\
  py_eval CPython.runtime "10**400" tt = (Returns (PyNum (PyInt (10 ^ 400))), tt) /\
  execute CPython.runtime "s" (CPython.payload "10**400") Example.start
  = (Raises OverflowError,
     (<["s" := {| expression := "10**400"; result := Some (PyInt (10 ^ 400));
                  expected_result := Example.target; reward := 0%float |}]> ∅, tt)).
Proof. by_evaluation. Qed.

(** ** Lenient parsing of the payload *)

Section Lenient.

Context (rt : Runtime).

Lemma malformed_is_empty (p : string) :
  malformed rt p -> parse_parameters rt p = Returns "".
Proof.
  unfold malformed, parse_parameters. intros H.
  destruct (json_loads rt p) as [[| | | | | |members]| |e];
    try reflexivity; try contradiction.
  rewrite H. reflexivity.
Qed.

Lemma submits_text (p text : string) :
  submits rt p text -> parse_parameters rt p = Returns text.
Proof.
  unfold submits, parse_parameters. intros ->. cbn [dict_get].
  rewrite String.eqb_refl. reflexivity.
Qed.

Lemma non_text_is_coerced (p : string) (v : json) :
  carries_non_text rt p v -> parse_parameters rt p = py_str rt v.
Proof.
  unfold carries_non_text, parse_parameters.
  destruct (json_loads rt p) as [[| | | | | |members]| |e]; try contradiction.
  intros [-> Hv]. destruct v; try reflexivity. contradiction.
Qed.

(** Where line 60 does catch: a payload rejected with JSONDecodeError, or
    decoded to something that is not a mapping, or to a mapping without an
    [expression] member, yields the empty expression without raising, and
    [execute] then does what it does for a payload submitting the empty
    text; a member that is not text is replaced by [str] of it. *)
Lemma lenient_where_caught (instance_id p : string)
    (st : gmap string session * world rt) :
  (malformed rt p ->
   parse_parameters rt p = Returns "" /\
   forall p0, submits rt p0 "" ->
     execute rt instance_id p st = execute rt instance_id p0 st) /\
  (forall v text, carries_non_text rt p v -> py_str rt v = Returns text ->
   parse_parameters rt p = Returns text /\
   forall p1, submits rt p1 text ->
     execute rt instance_id p st = execute rt instance_id p1 st).
Proof.
  split.
  - intros Hp. split; [apply malformed_is_empty, Hp|].
    intros p0 H0. apply execute_depends_on_expression.
    rewrite (malformed_is_empty p Hp), (submits_text p0 "" H0). reflexivity.
  - intros v text Hv Htext.
    assert (Hparse : parse_parameters rt p = Returns text)
      by (rewrite (non_text_is_coerced p v Hv); exact Htext).
    split; [exact Hparse|].
    intros p1 H1. apply execute_depends_on_expression.
    rewrite Hparse, (submits_text p1 _ H1). reflexivity.
Qed.

(** What line 60 does not catch leaves [execute] at once. *)
Lemma uncaught_load_error (instance_id p : string) (e : pyexn)
    (st : gmap string session * world rt) :
  json_loads rt p = LoadRaises e ->
  execute rt instance_id p st = (Raises e, st).
Proof.
  intros H. destruct st as [d w]. rewrite execute_unfold. unfold attempt, parse_parameters.
  rewrite H. reflexivity.
Qed.

End Lenient.

(** C7: a payload that is not valid JSON does not always behave as the
    empty expression.  A hundred thousand opening brackets are no JSON
    document; [json.loads] exhausts the recursion limit on them and raises
    RecursionError, which the handler of line 60 does not catch: the error
    surfaces from [execute], where the empty expression returns a triple. *)
Theorem nested_brackets_leave_execute :
  json_loads CPython.runtime Example.brackets = LoadRaises RecursionError /\
  execute CPython.runtime "s" Example.brackets Example.start
  = (Raises RecursionError, Example.start) /\
  (execute CPython.runtime "s" (CPython.payload "") Example.start).1
  = Returns ("Expression: , Result: None", (-0.05)%float, ∅).
Proof. by_evaluation. Qed.

(** ** The session store *)

(** [release] deletes an existing session and raises KeyError on an unknown
    identifier, leaving the store alone; so a second release raises. *)
Lemma release_removes (instance_id : string) (d : gmap string session) :
  (forall s, d !! instance_id = Some s ->
     release instance_id d = (Returns tt, delete instance_id d) /\
     delete instance_id d !! instance_id = None) /\
  (d !! instance_id = None ->
     release instance_id d = (Raises (KeyError instance_id), d)) /\
  release instance_id (delete instance_id d)
    = (Raises (KeyError instance_id), delete instance_id d).
Proof.
  assert (Hgone : delete instance_id d !! instance_id = None)
    by apply lookup_delete_eq.
  split; [|split].
  - intros s Hs. unfold release. rewrite Hs. auto.
  - intros Hs. unfold release. rewrite Hs. reflexivity.
  - unfold release. rewrite Hgone. reflexivity.
Qed.

(** [execute] on an unknown identifier never returns and leaves the store
    alone: it raises KeyError, unless parsing or evaluating the payload has
    already raised. *)
Lemma execute_unknown (rt : Runtime) (instance_id parameters : string)
    (d : gmap string session) (w : world rt) :
  d !! instance_id = None ->
  execute rt instance_id parameters (d, w) =
    (match (attempt rt parameters w).1 with
     | Returns _ => Raises (KeyError instance_id)
     | Raises e => Raises e
     end, (d, (attempt rt parameters w).2)).
Proof.
  intros Hs. rewrite execute_unfold.
  destruct (attempt rt parameters w) as [[[ex r]|e] w']; [|reflexivity].
  unfold settle. rewrite Hs. reflexivity.
Qed.

(** C8: [execute] on a released identifier does not always fail with a
    not-found error.  The payload is parsed before the store is looked at:
    once the example session is released, the hundred thousand brackets
    submitted to it raise RecursionError, not KeyError, while a payload that
    parses raises KeyError. *)
Theorem released_session_raises_before_lookup :
  let released := ((release "s" Example.store).2, tt) in
  release "s" Example.store = (Returns tt, ∅) /\
  execute CPython.runtime "s" Example.brackets released
  = (Raises RecursionError, released) /\
  execute CPython.runtime "s" (CPython.payload "10") released
  = (Raises (KeyError "s"), released).
Proof. by_evaluation. Qed.

(** C9: [calc_reward] hands the store back exactly as it received it,
    whether it returns or raises; what it returns is the tiered score of the
    result and the target stored for the session. *)
Theorem calc_reward_reads_only (instance_id : string) (d : gmap string session) :
  (calc_reward instance_id d).2 = d /\
  (calc_reward instance_id d).1 =
    match d !! instance_id with
    | Some s => tiered (result s) (expected_result s)
    | None => Raises (KeyError instance_id)
    end.
Proof. rewrite calc_reward_unfold. split; reflexivity. Qed.

(** C10: [create] with an identifier that is already in the store returns
    that identifier without raising and puts a fresh session in the place
    of the old one (empty expression, null result, reward 0.0, the new
    target); the other sessions are untouched. *)
Theorem create_replaces_existing (uuid instance_id : string)
    (target : option pynum) (d : gmap string session) (old : session) :
  d !! instance_id = Some old ->
  let d' := (create uuid (Some instance_id) target d).2 in
  (create uuid (Some instance_id) target d).1 = Returns instance_id /\
  d' !! instance_id =
    Some {| expression := ""; result := None; expected_result := target;
            reward := 0%float |} /\
  d' = <[instance_id := Spec.fresh target]> (delete instance_id d) /\
  forall other, other <> instance_id -> d' !! other = d !! other.
Proof.
  intros _. cbv zeta. unfold create. cbn [fst snd default from_option id].
  repeat split.
  - apply lookup_insert_eq.
  - symmetry. apply insert_delete_eq.
  - intros other Hne. apply lookup_insert_ne. congruence.
Qed.

Lemma create_replaces_existing_witness :
  let used := (execute CPython.runtime "s" (CPython.payload "10") Example.start).2.1 in
  used !! "s" = Some {| expression := "10"; result := Some (PyInt 10);
                        expected_result := Example.target; reward := 1%float |} /\
  (create "0f8fad5b-d9cb-469f-a165-70867728950e" (Some "s") None used).2 !! "s"
    = Some {| expression := ""; result := None; expected_result := None;
              reward := 0%float |}.
Proof.
  cbv zeta. split; [vm_compute; reflexivity|].
  apply (create_replaces_existing "0f8fad5b-d9cb-469f-a165-70867728950e" "s" None
           (execute CPython.runtime "s" (CPython.payload "10") Example.start).2.1
           {| expression := "10"; result := Some (PyInt 10);
              expected_result := Example.target; reward := 1%float |}).
  vm_compute. reflexivity.
Defined.

(** ** The scenarios of the specification's test list *)

(** None of the examples leaves the fragment of the interpreter. *)
Lemma examples_inside_fragment :
  Forall (fun p => is_Some (CPython.loads p)) (Example.brackets :: Example.payloads) /\
  Forall (fun e => is_Some (CPython.eval_source e)) Example.expressions /\
  Forall (fun p => exists e, parse_parameters CPython.runtime p = Returns e /\
                             In e Example.expressions)
    Example.payloads.
Proof.
  repeat split; repeat (constructor; [vm_compute; eauto 12|]); constructor.
Qed.

(** Target 10: "5" scores 0.0, then "10" scores 1.0, which is no regression. *)
Example improvement_is_not_penalised :
  (execute CPython.runtime "s" (CPython.payload "10")
     (run CPython.runtime "s" [CPython.payload "5"] Example.start)).1
  = Returns ("Expression: 10, Result: 10", 0%float, ∅).
Proof. vm_compute. reflexivity. Qed.

(** Target 10: "10" scores 1.0, then "5" scores 0.0 and is penalised. *)
Example regression_is_penalised :
  (execute CPython.runtime "s" (CPython.payload "5")
     (run CPython.runtime "s" [CPython.payload "10"] Example.start)).1
  = Returns ("Expression: 5, Result: 5", (-0.05)%float, ∅).
Proof. vm_compute. reflexivity. Qed.

(** Two sessions that both submit "4+4" are scored each against its own
    target. *)
Example sessions_score_independently :
  let st := run CPython.runtime "b" [CPython.payload "4+4"]
              (run CPython.runtime "a" [CPython.payload "4+4"]
                 (Example.two_sessions, tt)) in
  reward <$> st.1 !! "a" = Some 1%float /\ reward <$> st.1 !! "b" = Some 0%float.
Proof. by_evaluation. Qed.

(** Without a target the stored reward is 0.0 after every call that gets as
    far as the store. *)
Lemma no_target_scores_zero (rt : Runtime) (instance_id parameters ex : string)
    (r : option pynum) (d : gmap string session) (w w' : world rt) (s : session) :
  d !! instance_id = Some s ->
  expected_result s = None ->
  attempt rt parameters w = (Returns (ex, r), w') ->
  reward <$> (execute rt instance_id parameters (d, w)).2.1 !! instance_id
  = Some 0%float.
Proof.
  intros Hs Ht Hatt. rewrite execute_unfold, Hatt. unfold settle.
  rewrite Hs, Ht, tiered_without_target. cbn [fst snd].
  rewrite lookup_insert_eq. reflexivity.
Qed.

(** ** Sessions do not interfere *)

Section Isolation.

Context (rt : Runtime).

(** A call leaves every session but the named one as it was. *)
Lemma execute_leaves_others (instance_id parameters other : string)
    (d : gmap string session) (w : world rt) :
  other <> instance_id ->
  (execute rt instance_id parameters (d, w)).2.1 !! other = d !! other.
Proof.
  intros Hne.
  destruct (execute_store rt instance_id parameters d w) as [-> | (s & s' & _ & -> & _)].
  - reflexivity.
  - apply lookup_insert_ne. congruence.
Qed.


Lemma run_store (instance_id : string) (payloads : list string)
    (d : gmap string session) (w : world rt) (s : session) :
  d !! instance_id = Some s ->
  exists s', (run rt instance_id payloads (d, w)).1 = <[instance_id := s']> d.
Proof.
  revert d w s. induction payloads as [|p payloads IH]; intros d w s Hs.
  - exists s. symmetry. apply insert_id, Hs.
  - rewrite run_cons.
    destruct (execute_store rt instance_id p d w) as [H1 | (s0 & s1 & _ & H1 & _)];
      destruct (execute rt instance_id p (d, w)).2 as [d1 w1];
      cbn [fst] in H1; subst d1.
    + apply (IH d w1 s Hs).
    + destruct (IH (<[instance_id := s1]> d) w1 s1) as (s' & H');
        [apply lookup_insert_eq|].
      exists s'. rewrite H'. apply insert_insert_eq.
Qed.

End Isolation.

(** X1: [execute] changes nothing but the session it names, whether it
    returns or raises: every other session is as before, and the set of
    identifiers in the store is the same. *)
Theorem execute_frame (rt : Runtime) (instance_id parameters other : string)
    (d : gmap string session) (w : world rt) :
  (other <> instance_id ->
   (execute rt instance_id parameters (d, w)).2.1 !! other = d !! other) /\
  dom (execute rt instance_id parameters (d, w)).2.1 = dom d.
Proof.
  split; [apply execute_leaves_others|].
  destruct (execute_store rt instance_id parameters d w)
    as [-> | (s & s' & Hs & -> & _)]; [reflexivity|].
  rewrite dom_insert_L. apply subseteq_union_1_L, singleton_subseteq_l.
  apply elem_of_dom. eauto.
Qed.

Lemma execute_frame_witness :
  (execute CPython.runtime "a" (CPython.payload "4+4") (Example.two_sessions, tt)).2.1
    !! "b"
  = Example.two_sessions !! "b".
Proof.
  apply (execute_frame CPython.runtime "a" (CPython.payload "4+4") "b"
           Example.two_sessions tt).
  discriminate.
Defined.



(** X3: a whole life of a session leaves no trace: after [create], any
    calls of [execute] on the session and [release], the store is the one
    before [create] without the identifier, so it is that very store when
    the identifier was new; on a tool just constructed it is empty again. *)
Theorem lifecycle_leaves_no_trace (rt : Runtime) (uuid : string)
    (instance_id : option string) (target : option pynum)
    (payloads : list string) (d : gmap string session) (w : world rt) :
  let id := default uuid instance_id in
  let used := (run rt id payloads ((create uuid instance_id target d).2, w)).1 in
  release id used = (Returns tt, delete id d) /\
  (d !! id = None -> release id used = (Returns tt, d)) /\
  (d = new_tool -> (release id used).2 = new_tool).
Proof.
  cbv zeta. unfold create. cbn [snd].
  destruct (run_store rt (default uuid instance_id) payloads
              (<[default uuid instance_id := Spec.fresh target]> d) w
              (Spec.fresh target)) as (s' & Hrun);
    [apply lookup_insert_eq|].
  unfold Spec.fresh in Hrun at 1. rewrite Hrun, insert_insert_eq.
  assert (Hrel : release (default uuid instance_id)
                   (<[default uuid instance_id := s']> d)
                 = (Returns tt, delete (default uuid instance_id) d)).
  { unfold release. rewrite lookup_insert_eq, delete_insert_eq. reflexivity. }
  rewrite Hrel. split; [reflexivity|]. split.
  - intros Hnew. rewrite delete_id by exact Hnew. reflexivity.
  - intros ->. cbn [snd]. apply delete_empty.
Qed.

Lemma lifecycle_leaves_no_trace_witness :
  release "s" (run CPython.runtime "s" Example.right_then_failed Example.start).1
  = (Returns tt, ∅).
Proof.
  apply (lifecycle_leaves_no_trace CPython.runtime
           "0f8fad5b-d9cb-469f-a165-70867728950e" (Some "s") Example.target
           Example.right_then_failed ∅ tt).
  apply lookup_empty.
Defined.

(** ** The stored reward is a tier *)

Lemma tier_rank (w w' : float) :
  is_tier w -> is_tier w' -> PrimFloat.ltb w w' = true -> (rank w < rank w')%nat.
Proof.
  intros [-> | [-> | [-> | ->]]] [-> | [-> | [-> | ->]]] H;
    vm_compute in H; try discriminate H; vm_compute; lia.
Qed.

Lemma rank_bounded (w : float) : (rank w <= 3)%nat.
Proof.
  unfold rank. repeat (destruct (PrimFloat.eqb w _); [lia|]). lia.
Qed.


(** X4: the stored reward is always one of 0.0, 0.5, 0.8 and 1.0: a tool
    just constructed satisfies this, and [create], [execute] (returning or
    raising), [calc_reward] and [release] each keep it. *)
Theorem stored_rewards_are_tiers (rt : Runtime) (uuid instance_id parameters : string)
    (optional_id : option string) (target : option pynum)
    (d : gmap string session) (w : world rt) :
  tiers_only new_tool /\
  (tiers_only d ->
   tiers_only (create uuid optional_id target d).2 /\
   tiers_only (execute rt instance_id parameters (d, w)).2.1 /\
   tiers_only (calc_reward instance_id d).2 /\
   tiers_only (release instance_id d).2).
Proof.
  split; [apply map_Forall_empty|]. intros Hd. repeat split.
  - unfold create. cbn [snd]. apply map_Forall_insert_2; [|exact Hd].
    cbn [reward]. unfold is_tier. tauto.
  - destruct (execute_store rt instance_id parameters d w)
      as [-> | (s & s' & Hs & -> & _ & Hr)]; [exact Hd|].
    apply map_Forall_insert_2; [|exact Hd].
    destruct Hr as [-> | (res & Hres)].
    + exact (Hd _ _ Hs).
    + exact (tiered_is_a_tier _ _ _ Hres).
  - rewrite calc_reward_unfold. exact Hd.
  - unfold release. destruct (d !! instance_id); [|exact Hd].
    cbn [snd]. apply map_Forall_delete, Hd.
Qed.

Lemma stored_rewards_are_tiers_witness :
  tiers_only (execute CPython.runtime "s" (CPython.payload "10") Example.start).2.1.
Proof.
  destruct (stored_rewards_are_tiers CPython.runtime
              "0f8fad5b-d9cb-469f-a165-70867728950e" "s" (CPython.payload "10")
              (Some "s") Example.target new_tool tt) as [Hnew Hstep].
  destruct (Hstep Hnew) as (Hcreate & _).
  destruct (stored_rewards_are_tiers CPython.runtime
              "0f8fad5b-d9cb-469f-a165-70867728950e" "s" (CPython.payload "10")
              None None Example.store tt) as [_ Hstep'].
  exact (proj1 (proj2 (Hstep' Hcreate))).
Defined.



(** A call with shaping reward 0.0 moves the stored reward up the tier
    table. *)
Lemma unpenalised_call_climbs (rt : Runtime) (instance_id parameters : string)
    (d : gmap string session) (w : world rt) (s : session) :
  d !! instance_id = Some s ->
  is_tier (reward s) ->
  shaping rt instance_id parameters (d, w) = Some 0%float ->
  exists s', (execute rt instance_id parameters (d, w)).2.1 !! instance_id = Some s' /\
             is_tier (reward s') /\ (rank (reward s) < rank (reward s'))%nat.
Proof.
  intros Hs Htier. unfold shaping.
  destruct (execute rt instance_id parameters (d, w)) as [[out|e] st'] eqn:Hex;
    cbn [fst snd]; [|discriminate].
  destruct (returning_call rt _ _ _ _ _ _ _ Hs Hex)
    as (ex & r & score & text & _ & Hscore & _ & -> & ->).
  destruct (PrimFloat.ltb (reward s) score) eqn:Hlt.
  - intros _. eexists. split; [apply lookup_insert_eq|]. cbn [reward].
    split; [exact (tiered_is_a_tier _ _ _ Hscore)|].
    apply tier_rank; [exact Htier | exact (tiered_is_a_tier _ _ _ Hscore) | exact Hlt].
  - intros H.
    apply (f_equal (fun o => match o with
                             | Some t => PrimFloat.eqb t 0
                             | None => false
                             end)) in H.
    vm_compute in H. discriminate H.
Qed.

(** X6: in a store whose rewards are tiers, no session gets through four
    calls in a row without a penalty: of any four consecutive calls, one at
    least raises or returns the shaping reward -0.05. *)
Theorem at_most_three_unpenalised (rt : Runtime) (instance_id p1 p2 p3 p4 : string)
    (d : gmap string session) (w : world rt) (s : session) :
  d !! instance_id = Some s ->
  is_tier (reward s) ->
  let st1 := (execute rt instance_id p1 (d, w)).2 in
  let st2 := (execute rt instance_id p2 st1).2 in
  let st3 := (execute rt instance_id p3 st2).2 in
  ~ (shaping rt instance_id p1 (d, w) = Some 0%float /\
     shaping rt instance_id p2 st1 = Some 0%float /\
     shaping rt instance_id p3 st2 = Some 0%float /\
     shaping rt instance_id p4 st3 = Some 0%float).
Proof.
  intros Hs Htier st1 st2 st3 (H1 & H2 & H3 & H4).
  destruct (unpenalised_call_climbs rt _ _ _ _ _ Hs Htier H1) as (s1 & Hs1 & Ht1 & R1).
  fold st1 in Hs1. destruct st1 as [d1 w1]. cbn [fst] in Hs1.
  destruct (unpenalised_call_climbs rt _ _ _ _ _ Hs1 Ht1 H2) as (s2 & Hs2 & Ht2 & R2).
  fold st2 in Hs2. destruct st2 as [d2 w2]. cbn [fst] in Hs2.
  destruct (unpenalised_call_climbs rt _ _ _ _ _ Hs2 Ht2 H3) as (s3 & Hs3 & Ht3 & R3).
  fold st3 in Hs3. destruct st3 as [d3 w3]. cbn [fst] in Hs3.
  destruct (unpenalised_call_climbs rt _ _ _ _ _ Hs3 Ht3 H4) as (s4 & _ & _ & R4).
  pose proof (rank_bounded (reward s4)). lia.
Qed.

Lemma at_most_three_unpenalised_witness :
  ~ (shaping CPython.runtime "s" (CPython.payload "5") Example.start = Some 0%float /\
     shaping CPython.runtime "s" (CPython.payload "10")
       (run CPython.runtime "s" [CPython.payload "5"] Example.start) = Some 0%float /\
     shaping CPython.runtime "s" (CPython.payload "10")
       (run CPython.runtime "s" [CPython.payload "5"; CPython.payload "10"]
          Example.start) = Some 0%float /\
     shaping CPython.runtime "s" (CPython.payload "10")
       (run CPython.runtime "s"
          [CPython.payload "5"; CPython.payload "10"; CPython.payload "10"]
          Example.start) = Some 0%float).
Proof.
  apply (at_most_three_unpenalised CPython.runtime "s" (CPython.payload "5")
           (CPython.payload "10") (CPython.payload "10") (CPython.payload "10")
           Example.store tt (Spec.fresh Example.target)).
  - vm_compute. reflexivity.
  - right. right. right. reflexivity.
Defined.

(** ** What a raising call leaves behind *)

Lemma float_of_int_raises_only_overflow (z : Z) (e : pyexn) :
  float_of_int z = Raises e -> e = OverflowError.
Proof.
  unfold float_of_int. destruct (binary_normalize _ _ _ _ _); congruence.
Qed.

(** The subtraction raises exactly when one operand is a float and the
    other an integer that does not convert. *)
Lemma py_sub_raises_iff (r x : pynum) (e : pyexn) :
  py_sub r x = Raises e <->
  e = OverflowError /\
  exists z, float_of_int z = Raises OverflowError /\
            ((as_int r = Some z /\ as_int x = None) \/
             (as_int r = None /\ as_int x = Some z)).
Proof.
  split.
  - unfold py_sub.
    destruct r as [a|a|a], x as [b|b|b]; cbn [as_int as_float]; try discriminate.
    + destruct (float_of_int a) as [fa|ea] eqn:Ha; [discriminate|].
      pose proof (float_of_int_raises_only_overflow _ _ Ha) as ->.
      intros [= <-]. split; [reflexivity|]. exists a. auto.
    + destruct (float_of_int (Z.b2z a)) as [fa|ea] eqn:Ha; [discriminate|].
      pose proof (float_of_int_raises_only_overflow _ _ Ha) as ->.
      intros [= <-]. split; [reflexivity|]. exists (Z.b2z a). auto.
    + destruct (float_of_int b) as [fb|eb] eqn:Hb; [discriminate|].
      pose proof (float_of_int_raises_only_overflow _ _ Hb) as ->.
      intros [= <-]. split; [reflexivity|]. exists b. auto.
    + destruct (float_of_int (Z.b2z b)) as [fb|eb] eqn:Hb; [discriminate|].
      pose proof (float_of_int_raises_only_overflow _ _ Hb) as ->.
      intros [= <-]. split; [reflexivity|]. exists (Z.b2z b). auto.
  - intros (-> & z & Hz & [[Hr Hx] | [Hr Hx]]); unfold py_sub.
    + destruct r as [a|a|a], x as [b|b|b]; cbn [as_int as_float] in *;
        try discriminate; injection Hr as ->; rewrite Hz; reflexivity.
    + destruct r as [a|a|a], x as [b|b|b]; cbn [as_int as_float] in *;
        try discriminate; injection Hx as ->; rewrite Hz; reflexivity.
Qed.

(** X7: when [execute] raises, the store is in one of three states.  It is
    untouched when the exception came from parsing or evaluating the
    payload, or is the KeyError of a missing session.  It holds this call's
    expression and result with the old reward when the exception came from
    computing the reward.  It holds them with the new reward when the
    exception came from building the message. *)
Theorem store_after_raising_execute (rt : Runtime) (instance_id parameters : string)
    (d : gmap string session) (w : world rt) (e : pyexn)
    (st' : gmap string session * world rt) :
  execute rt instance_id parameters (d, w) = (Raises e, st') ->
  st'.2 = (attempt rt parameters w).2 /\
  ((st'.1 = d /\
    ((attempt rt parameters w).1 = Raises e \/
     (d !! instance_id = None /\ e = KeyError instance_id))) \/
   (exists s ex r,
      d !! instance_id = Some s /\
      (attempt rt parameters w).1 = Returns (ex, r) /\
      ((tiered r (expected_result s) = Raises e /\
        st'.1 = <[instance_id := {| expression := ex; result := r;
                                    expected_result := expected_result s;
                                    reward := reward s |}]> d) \/
       (exists score,
          tiered r (expected_result s) = Returns score /\
          message rt ex r = Raises e /\
          st'.1 = <[instance_id := {| expression := ex; result := r;
                                      expected_result := expected_result s;
                                      reward := score |}]> d)))).
Proof.
  rewrite execute_unfold.
  destruct (attempt rt parameters w) as [[[ex r]|e'] w'] eqn:Hatt; cbn [fst snd].
  - unfold settle. destruct (d !! instance_id) as [s|] eqn:Hs.
    + destruct (tiered r (expected_result s)) as [score|x] eqn:Hscore; cbn [fst snd].
      * destruct (message rt ex r) as [text|x] eqn:Htext; [discriminate|].
        intros [= <- <-]. split; [reflexivity|]. right.
        exists s, ex, r. repeat split. right. exists score. auto.
      * intros [= <- <-]. split; [reflexivity|]. right.
        exists s, ex, r. repeat split. left. auto.
    + intros [= <- <-]. split; [reflexivity|]. left. auto.
  - intros [= <- <-]. split; [reflexivity|]. left. auto.
Qed.

Lemma store_after_raising_execute_witness :
  (execute CPython.runtime "s" (CPython.payload "10**400") Example.start).2.2
  = (attempt CPython.runtime (CPython.payload "10**400") tt).2.
Proof.
  apply (store_after_raising_execute CPython.runtime "s" (CPython.payload "10**400")
           Example.store tt OverflowError
           (execute CPython.runtime "s" (CPython.payload "10**400") Example.start).2).
  vm_compute. reflexivity.
Defined.

(** ** Scores of equal numbers *)

(** An integer is below a threshold of the tier table exactly when it is
    not positive. *)
Lemma int_lt_tolerance (n : Z) :
  int_lt_float n 1e-10%float = (n <=? 0) /\
  int_lt_float n 0.01%float = (n <=? 0) /\
  int_lt_float n 0.1%float = (n <=? 0).
Proof.
  unfold int_lt_float.
  repeat split;
    match goal with
    | |- context [Prim2SF ?f] =>
        let sf := fresh "sf" in
        set (sf := Prim2SF f); vm_compute in sf; subst sf
    end;
    cbv beta iota;
    match goal with
    | |- context [0 <=? ?e] => change (0 <=? e) with false
    end;
    cbv beta iota;
    match goal with
    | |- context [2 ^ ?k] =>
        let c := fresh "c" in
        let Hc := fresh "Hc" in
        remember (2 ^ k) as c eqn:Hc; vm_compute in Hc; subst c
    end;
    match goal with
    | |- (?l <? ?u) = _ => destruct (Z.ltb_spec l u), (Z.leb_spec n 0)
    end; try reflexivity; lia.
Qed.

(** X8: with an integer result and an integer target the score is all or
    nothing: 1.0 when the two are equal and 0.0 otherwise, however large
    they are; the tiers 0.8 and 0.5 are out of reach and nothing is
    raised. *)
Theorem integers_score_all_or_nothing (r x : pynum) (a b : Z) :
  as_int r = Some a -> as_int x = Some b ->
  tiered (Some r) (Some x) = Returns (if a =? b then 1%float else 0%float).
Proof.
  intros Hr Hx. unfold tiered, py_sub. rewrite Hr, Hx. cbv zeta.
  cbn [py_abs py_lt].
  destruct (int_lt_tolerance (Z.abs (a - b))) as (-> & -> & ->).
  destruct (Z.leb_spec (Z.abs (a - b)) 0), (Z.eqb_spec a b); try reflexivity; lia.
Qed.

Lemma integers_score_all_or_nothing_witness :
  tiered (Some (PyInt (10 ^ 400))) (Some (PyBool true)) = Returns 0%float.
Proof.
  apply (integers_score_all_or_nothing (PyInt (10 ^ 400)) (PyBool true)
           (10 ^ 400) 1); reflexivity.
Defined.

(** X9: a result and a target that are, or convert to, the same float
    score 1.0 when that float is finite, and 0.0 when it is an infinity or
    nan: the difference is then nan, which is below no threshold. *)
Theorem same_float_scores (r x : pynum) (f : float) :
  as_float r = Returns f -> as_float x = Returns f ->
  as_int r = None \/ as_int x = None ->
  tiered (Some r) (Some x) = Returns (if finite f then 1%float else 0%float).
Proof.
  intros Hr Hx Hkind.
  assert (Hsub : py_sub r x = Returns (PyFloat (PrimFloat.sub f f))).
  { unfold py_sub. rewrite Hr, Hx.
    destruct Hkind as [-> | ->]; [reflexivity|].
    destruct (as_int r); reflexivity. }
  unfold tiered. rewrite Hsub. cbv zeta. cbn [py_abs py_lt].
  rewrite !ltb_spec, abs_spec, sub_spec. unfold finite, SF64sub.
  destruct (Prim2SF f) as [s|s| |s m e].
  - destruct s; reflexivity.
  - destruct s; reflexivity.
  - reflexivity.
  - unfold SFsub. rewrite Z.sub_diag. reflexivity.
Qed.

Lemma same_float_scores_witness :
  tiered (Some (PyInt 10)) (Some (PyFloat 10%float)) = Returns 1%float.
Proof.
  apply (same_float_scores (PyInt 10) (PyFloat 10%float) 10%float).
  - vm_compute. reflexivity.
  - reflexivity.
  - right. reflexivity.
Defined.

(** ** A session carries no history *)



(** ** The first steps of a session *)

(** X11: [create] never raises and returns the identifier it stored the
    session under, the given one or else the generated one; right after,
    [calc_reward] on that identifier returns 0.0 whatever the target is,
    and every other session is as before. *)
Theorem create_then_calc_reward (uuid : string) (instance_id : option string)
    (target : option pynum) (d : gmap string session) :
  let id := default uuid instance_id in
  let d' := (create uuid instance_id target d).2 in
  (create uuid instance_id target d).1 = Returns id /\
  calc_reward id d' = (Returns 0%float, d') /\
  forall other, other <> id -> d' !! other = d !! other.
Proof.
  cbv zeta. unfold create. cbn [fst snd]. repeat split.
  - rewrite calc_reward_unfold, lookup_insert_eq. reflexivity.
  - intros other Hne. apply lookup_insert_ne. congruence.
Qed.

Lemma create_then_calc_reward_witness :
  (create "16fd2706-8baf-433b-82eb-8c7fada847da" None Example.target
     Example.two_sessions).2 !! "a"
  = Example.two_sessions !! "a".
Proof.
  apply (create_then_calc_reward "16fd2706-8baf-433b-82eb-8c7fada847da" None
           Example.target Example.two_sessions).
  discriminate.
Defined.

(** X12: the first call on a fresh session is penalised exactly when it
    scores 0.0: it returns the shaping reward 0.0 for a score of 0.5, 0.8
    or 1.0, and -0.05 for the score 0.0. *)
Theorem first_call_penalised_iff_zero (rt : Runtime) (uuid : string)
    (instance_id : option string) (target : option pynum)
    (parameters : string) (d : gmap string session) (w0 : world rt)
    (after : gmap string session * world rt)
    (msg : string) (tool_reward : float) (meta : gmap string pyvalue) :
  let id := default uuid instance_id in
  execute rt id parameters ((create uuid instance_id target d).2, w0)
    = (Returns (msg, tool_reward, meta), after) ->
  exists ex r w,
    (attempt rt parameters w0).1 = Returns (ex, r) /\
    tiered r target = Returns w /\
    reward <$> after.1 !! id = Some w /\
    ((w = 0%float /\ tool_reward = (-0.05)%float) \/
     ((w = 0.5%float \/ w = 0.8%float \/ w = 1%float) /\ tool_reward = 0%float)).
Proof.
  cbv zeta. unfold create. cbn [snd]. intros Hex.
  destruct (returning_call rt _ _ _ _ _ _ _ (lookup_insert_eq _ _ _) Hex)
    as (ex & r & score & text & Hatt & Hscore & _ & [= _ -> _] & ->).
  cbn [expected_result reward] in *.
  exists ex, r, score. rewrite Hatt, lookup_insert_eq.
  repeat split; try assumption.
  destruct (tiered_is_a_tier _ _ _ Hscore) as [-> | [-> | [-> | ->]]]; auto 6.
Qed.

Lemma first_call_penalised_iff_zero_witness :
  exists ex r w,
    (attempt CPython.runtime (CPython.payload "5") tt).1 = Returns (ex, r) /\
    tiered r Example.target = Returns w /\
    reward <$> (execute CPython.runtime "s" (CPython.payload "5") Example.start).2.1
                 !! "s" = Some w /\
    ((w = 0%float /\ (-0.05)%float = (-0.05)%float) \/
     ((w = 0.5%float \/ w = 0.8%float \/ w = 1%float) /\ (-0.05)%float = 0%float)).
Proof.
  apply (first_call_penalised_iff_zero CPython.runtime
           "0f8fad5b-d9cb-469f-a165-70867728950e" (Some "s") Example.target
           (CPython.payload "5") ∅ tt
           (execute CPython.runtime "s" (CPython.payload "5") Example.start).2
           "Expression: 5, Result: 5" (-0.05)%float ∅).
  vm_compute. reflexivity.
Defined.

(** ** Names in the evaluated expression *)

Lemma unknown_name_lookup (x : string) :
  x <> "abs" -> x <> "round" -> x <> "__builtins__" ->
  CPython.lookup_name x = Raises (NameError x).
Proof.
  intros H1 H2 H3.
  unfold CPython.lookup_name, CPython.locals, CPython.globals, CPython.builtins.
  cbn [CPython.assoc].
  destruct (String.eqb_spec "abs" x) as [E|_]; [congruence|].
  destruct (String.eqb_spec "round" x) as [E|_]; [congruence|].
  destruct (String.eqb_spec "__builtins__" x) as [E|_]; [congruence|].
  reflexivity.
Qed.

Lemma unknown_name_first (e : CPython.expr) (x : string) :
  first_evaluated e = CPython.EName x ->
  x <> "abs" -> x <> "round" -> x <> "__builtins__" ->
  CPython.eval_expr e = Some (Raises (NameError x)).
Proof.
  intros Hfirst H1 H2 H3.
  induction e as [z|s| | | |y|e IH attr|f IH args|op e IH|op l IHl r IHr];
    cbn [first_evaluated] in Hfirst; try discriminate.
  - injection Hfirst as ->. cbn [CPython.eval_expr].
    rewrite unknown_name_lookup by assumption. reflexivity.
  - cbn [CPython.eval_expr]. rewrite (IH Hfirst). reflexivity.
  - cbn [CPython.eval_expr]. rewrite (IH Hfirst). reflexivity.
  - cbn [CPython.eval_expr]. rewrite (IH Hfirst). reflexivity.
  - cbn [CPython.eval_expr]. rewrite (IHl Hfirst). reflexivity.
Qed.

(** X13: under the namespaces of line 72, a short expression of the
    fragment whose first evaluated part is a name other than abs, round and
    __builtins__ raises NameError for that name, whatever attribute
    accesses, calls, arguments and operators follow it; the guarded
    evaluation then yields a null result. *)
Theorem unknown_name_is_refused (s : string) (e : CPython.expr) (x : string) :
  CPython.parse s = Some (Some e) ->
  first_evaluated e = CPython.EName x ->
  x <> "abs" -> x <> "round" -> x <> "__builtins__" ->
  py_eval CPython.runtime s tt = (Raises (NameError x), tt) /\
  evaluate CPython.runtime s tt = (Returns None, tt).
Proof.
  intros Hparse Hfirst H1 H2 H3.
  assert (Heval : py_eval CPython.runtime s tt = (Raises (NameError x), tt)).
  { cbn [py_eval CPython.runtime]. unfold CPython.eval_source.
    rewrite Hparse. cbn [mbind option_bind].
    rewrite (unknown_name_first e x Hfirst H1 H2 H3). reflexivity. }
  split; [exact Heval|]. unfold evaluate. rewrite Heval. reflexivity.
Qed.

Lemma unknown_name_is_refused_witness :
  py_eval CPython.runtime "__import__('os').system('ls')" tt
    = (Raises (NameError "__import__"), tt) /\
  evaluate CPython.runtime "__import__('os').system('ls')" tt = (Returns None, tt).
Proof.
  apply (unknown_name_is_refused "__import__('os').system('ls')"
           (CPython.ECall
              (CPython.EAttr
                 (CPython.ECall (CPython.EName "__import__") [CPython.EStr "os"])
                 "system")
              [CPython.EStr "ls"])
           "__import__").
  - vm_compute. reflexivity.
  - reflexivity.
  - discriminate.
  - discriminate.
  - discriminate.
Defined.
